(** * The streaming detector of [detector.py]

    A shallow embedding of [Detector], of its four detection strategies and
    of its statistics.

    - A Python [float] is an IEEE-754 binary64 number: Rocq's primitive
      [float], whose operations are specified bit for bit by [SpecFloat].
      Values, thresholds and sensitivities are floats, as the annotations
      of the source say.
    - Python exceptions are explicit.  Every operation of the interpreter
      that can raise ([/], [**]) returns in the monad [Py.result]; a
      function of the detector that returns [Ok r] returned [r], one that
      returns [Raise e] raised [e].
    - [time.time()] is an input: each evaluation takes the clock reading.
    - A method is a function of the detector state that gives the new state
      back together with its result.

    Besides the detector: the crossing of [index.py] ([Index]), and the
    state that the loops of [main.py] ([Main]) and of the second script of
    [test_index.py] ([RealMain]) carry from frame to frame.  The calls to
    OpenCV (capture, cascade classifiers, drawing, display) are outside. *)

From Stdlib Require Import String ZArith List Bool Lia.
From Stdlib Require Import Uint63 Floats DecimalString.
Import ListNotations.

Local Open Scope float_scope.

(** ** The pieces of the Python runtime the detector uses *)

Module Py.

Inductive exn : Type :=
| ZeroDivisionError
| OverflowError
| TypeError
| UserError (what : string).

Inductive result (A : Type) : Type :=
| Ok (a : A)
| Raise (e : exn).
Arguments Ok {A} a.
Arguments Raise {A} e.

Definition bind {A B : Type} (m : result A) (k : A -> result B) : result B :=
  match m with
  | Ok a => k a
  | Raise e => Raise e
  end.

Definition returns {A : Type} (m : result A) : bool :=
  match m with Ok _ => true | Raise _ => false end.

(** Comparisons of two floats: [x >= y], [x > y], [x != y]. *)
Definition ge (x y : float) : bool := y <=? x.
Definition gt (x y : float) : bool := y <? x.
Definition ne (x y : float) : bool := negb (x =? y).

(** [min(a, b)] and [max(a, b)] keep the first argument unless the second
    is strictly smaller (resp. larger); a NaN is therefore never chosen
    over a first argument that is a number. *)
Definition min (a b : float) : float := if b <? a then b else a.
Definition max (a b : float) : float := if a <? b then b else a.

(** [x / y] on floats raises on a zero divisor and otherwise is the IEEE
    quotient (an overflow gives an infinity, silently). *)
Definition truediv (x y : float) : result float :=
  if y =? 0 then Raise ZeroDivisionError else Ok (x / y).

(** The float nearest to an [int]; used for lengths, which fit in 63 bits. *)
Definition float_of_int (n : Z) : float := of_uint63 (Uint63.of_Z n).

(** [x / n] for a float [x] and an [int] [n]: [n] is converted, and the
    converted divisor is zero exactly when [n] is. *)
Definition truediv_int (x : float) (n : Z) : result float :=
  if (n =? 0)%Z then Raise ZeroDivisionError else Ok (x / float_of_int n).

(** [a / b] on two [int]s (true division): the quotient of the converted
    operands, which is the correctly rounded quotient while both are below
    [2 ^ 53]. *)
Definition int_truediv (a b : Z) : result float :=
  if (b =? 0)%Z then Raise ZeroDivisionError
  else Ok (float_of_int a / float_of_int b).

Definition is_finite (x : float) : bool :=
  negb (is_nan x) && negb (is_infinity x).

(** [x ** 2]: CPython's [float_pow] returns NaN, +infinity and +0 for a
    NaN, an infinite and a zero base; for any other base it calls the
    platform [pow] and raises [OverflowError] when the result is out of
    range.  The platform [pow] is taken as correctly rounded. *)
Definition pow2 (x : float) : result float :=
  if is_nan x then Ok x
  else if is_infinity x then Ok (abs x)
  else if x =? 0 then Ok 0
  else
    let r := x * x in
    if is_infinity r then Raise OverflowError else Ok r.

(** [x ** 0.5]: a negative base gives a [complex], on which the ordering
    comparisons that follow raise [TypeError]; it is reported here. *)
Definition pow_half (x : float) : result float :=
  if is_nan x then Ok x
  else if is_infinity x then Ok (abs x)
  else if x =? 0 then Ok 0
  else if x <? 0 then Raise TypeError
  else Ok (sqrt x).

(** [sum(xs)]: left to right from the integer 0 (CPython before 3.12;
    later versions add a compensation term to the same loop). *)
Definition sum (xs : list float) : float := fold_left add xs 0.

(** [sum(f(x) for x in xs)] where [f] may raise. *)
Fixpoint sum_gen (f : float -> result float) (xs : list float) (acc : float)
  : result float :=
  match xs with
  | [] => Ok acc
  | x :: xs' => bind (f x) (fun y => sum_gen f xs' (acc + y))
  end.

End Py.

Import Py.

Notation "x <- m ;; k" := (Py.bind m (fun x => k))
  (at level 100, m at next level, right associativity).

(** ** Data model *)

Inductive DetectionType : Type :=
| THRESHOLD
| PATTERN
| ANOMALY
| CHANGE.

(** The dataclass does not check its field types: [detection_type] can hold
    a member of the enumeration or any other object. *)
Inductive type_value : Type :=
| Member (t : DetectionType)
| Foreign (repr : string).

(** Values stored in a metadata dictionary. *)
Inductive meta_value : Type :=
| MStr (s : string)
| MFloat (x : float)
| MInt (n : Z).

Definition metadata_t : Type := list (string * meta_value).

Record DetectionResult : Type := mkResult {
  detected : bool;
  confidence : float;
  timestamp : float;
  metadata : metadata_t
}.

(** A callback returns normally ([None]) or raises. *)
Definition callback_t : Type := DetectionResult -> option Py.exn.

Record DetectionConfig : Type := mkConfig {
  detection_type : type_value;
  threshold : option float;
  window_size : Z;
  sensitivity : float;
  callback : option callback_t
}.

(** The defaults of the dataclass. *)
Definition default_config (t : DetectionType) : DetectionConfig :=
  mkConfig (Member t) None 10 1 None.

Record Detector : Type := mkDetector {
  config : DetectionConfig;
  data_buffer : list float;
  detection_history : list DetectionResult;
  _last_detection_time : Z
}.

(** Dictionary lookup, first binding of the key. *)
Fixpoint meta_get (k : string) (m : metadata_t) : option meta_value :=
  match m with
  | [] => None
  | (k', v) :: m' => if String.eqb k k' then Some v else meta_get k m'
  end.

(** [buf[-1]] and [buf[-2]] on buffers long enough. *)
Definition last1 (buf : list float) : float := last buf 0.
Definition last2 (buf : list float) : float := last (removelast buf) 0.

(** ** The detector *)

Definition __init__ (cfg : DetectionConfig) : Detector :=
  mkDetector cfg [] [] 0.

(** [Detector(config)]: the call runs [__init__], whose body is four
    assignments; nothing in it raises. *)
Definition construct (cfg : DetectionConfig) : Py.result Detector :=
  Ok (__init__ cfg).

Definition abstain (ts : float) : DetectionResult :=
  mkResult false 0 ts [("reason", MStr "insufficient_data")]%string.

Definition buffer_len (buf : list float) : Z := Z.of_nat (length buf).

Definition _threshold_detection (cfg : DetectionConfig) (buf : list float)
    (ts : float) : Py.result DetectionResult :=
  match buf, threshold cfg with
  | [], _ | _, None => Ok (abstain ts)
  | _ :: _, Some th =>
    let current_value := last1 buf in
    let det := Py.ge current_value th in
    conf <- (if Py.ne th 0
             then q <- Py.truediv (abs (current_value - th)) (abs th) ;;
                  Ok (Py.min 1 q)
             else Ok 0) ;;
    Ok (mkResult det conf ts
          [("current_value", MFloat current_value);
           ("threshold", MFloat th);
           ("buffer_size", MInt (buffer_len buf))]%string)
  end.

(** [all(buf[i] < buf[i + 1] for i in range(len(buf) - 1))] *)
Definition all_consecutive (rel : float -> float -> bool) (buf : list float)
  : bool :=
  forallb (fun i => rel (nth i buf 0) (nth (i + 1) buf 0))
          (seq 0 (length buf - 1)).

Definition _pattern_detection (cfg : DetectionConfig) (buf : list float)
    (ts : float) : Py.result DetectionResult :=
  if (buffer_len buf <? 3)%Z then Ok (abstain ts)
  else
    let is_increasing := all_consecutive PrimFloat.ltb buf in
    let is_decreasing := all_consecutive Py.gt buf in
    let det := is_increasing || is_decreasing in
    let conf := if det then 1 else 0 in
    Ok (mkResult det conf ts
          [("pattern", MStr (if is_increasing then "increasing"
                             else if is_decreasing then "decreasing"
                             else "none"));
           ("buffer_size", MInt (buffer_len buf))]%string).

Definition _anomaly_detection (cfg : DetectionConfig) (buf : list float)
    (ts : float) : Py.result DetectionResult :=
  if (buffer_len buf <? 3)%Z then Ok (abstain ts)
  else
    mean <- Py.truediv_int (Py.sum buf) (buffer_len buf) ;;
    sq <- Py.sum_gen (fun x => Py.pow2 (x - mean)) buf 0 ;;
    variance <- Py.truediv_int sq (buffer_len buf) ;;
    std_dev <- Py.pow_half variance ;;
    let current_value := last1 buf in
    let thr := sensitivity cfg * std_dev in
    let det := Py.gt (abs (current_value - mean)) thr in
    conf <- (if Py.ne thr 0
             then q <- Py.truediv (abs (current_value - mean)) (Py.max thr 1) ;;
                  Ok (Py.min 1 q)
             else Ok 0) ;;
    Ok (mkResult det conf ts
          [("current_value", MFloat current_value);
           ("mean", MFloat mean);
           ("std_dev", MFloat std_dev);
           ("deviation", MFloat (abs (current_value - mean)))]%string).

Definition _change_detection (cfg : DetectionConfig) (buf : list float)
    (ts : float) : Py.result DetectionResult :=
  if (buffer_len buf <? 2)%Z then Ok (abstain ts)
  else
    let prev_value := last2 buf in
    let current_value := last1 buf in
    relative_change <-
      (if Py.ne prev_value 0
       then q <- Py.truediv (current_value - prev_value) prev_value ;;
            Ok (abs q)
       else Ok (abs current_value)) ;;
    let det := Py.gt relative_change (sensitivity cfg) in
    conf <- (if Py.ne (sensitivity cfg) 0
             then q <- Py.truediv relative_change (sensitivity cfg) ;;
                  Ok (Py.min 1 q)
             else Ok 0) ;;
    Ok (mkResult det conf ts
          [("previous_value", MFloat prev_value);
           ("current_value", MFloat current_value);
           ("relative_change", MFloat relative_change)]%string).

(** The result of the last branch of [_detect]. *)
Definition unknown_type_result (ts : float) : DetectionResult :=
  mkResult false 0 ts [("error", MStr "Unknown detection type")]%string.

(** [ts] is the reading of [time.time()]. *)
Definition _detect (cfg : DetectionConfig) (buf : list float) (ts : float)
  : Py.result DetectionResult :=
  match detection_type cfg with
  | Member THRESHOLD => _threshold_detection cfg buf ts
  | Member PATTERN => _pattern_detection cfg buf ts
  | Member ANOMALY => _anomaly_detection cfg buf ts
  | Member CHANGE => _change_detection cfg buf ts
  | Foreign _ => Ok (unknown_type_result ts)
  end.

(** The buffer after [append(value)] and the eviction test. *)
Definition push (cfg : DetectionConfig) (buf : list float) (value : float)
  : list float :=
  let buf1 := buf ++ [value] in
  if (buffer_len buf1 >? window_size cfg)%Z then tl buf1 else buf1.

(** [add_data_point]: the detector after the call and what the call gives
    back.  When detection raises, the buffer has already been updated and
    nothing is appended to the history. *)
Definition add_data_point (d : Detector) (ts value : float)
  : Detector * Py.result DetectionResult :=
  let cfg := config d in
  let buf := push cfg (data_buffer d) value in
  let d1 := mkDetector cfg buf (detection_history d) (_last_detection_time d) in
  match _detect cfg buf ts with
  | Raise e => (d1, Raise e)
  | Ok r =>
    let d2 := mkDetector cfg buf (detection_history d ++ [r])
                         (_last_detection_time d) in
    match (if detected r then callback cfg else None) with
    | Some cb =>
      match cb r with
      | Some e => (d2, Raise e)
      | None => (d2, Ok r)
      end
    | None => (d2, Ok r)
    end
  end.

Definition reset (d : Detector) : Detector :=
  mkDetector (config d) [] [] 0.

Record Statistics : Type := mkStats {
  total_checks : Z;
  positive_detections : Z;
  detection_rate : float;
  average_confidence : float;
  buffer_size : Z
}.

(** [sum(1 for r in history if r.detected)] *)
Definition count_detected (history : list DetectionResult) : Z :=
  fold_left (fun acc r => if detected r then (acc + 1)%Z else acc) history 0%Z.

(** [get_statistics] reads the detector and gives it back as it was. *)
Definition get_statistics (d : Detector) : Detector * Py.result Statistics :=
  let total_detections := Z.of_nat (length (detection_history d)) in
  let positive := count_detected (detection_history d) in
  (d,
   avg_confidence <-
     (match detection_history d with
      | [] => Ok 0
      | _ :: _ =>
        Py.truediv_int (Py.sum (map confidence (detection_history d)))
                       total_detections
      end) ;;
   rate <- (if (total_detections >? 0)%Z
            then Py.int_truediv positive total_detections
            else Ok 0) ;;
   Ok (mkStats total_detections positive rate avg_confidence
               (buffer_len (data_buffer d)))).

(** Feeding a sequence of (clock reading, value) pairs, whatever each call
    gives back. *)
Definition feed (d : Detector) (inputs : list (float * float)) : Detector :=
  fold_left (fun d' tv => fst (add_data_point d' (fst tv) (snd tv))) inputs d.

(** The results of the successive calls. *)
Fixpoint outcomes (d : Detector) (inputs : list (float * float))
  : list (Py.result DetectionResult) :=
  match inputs with
  | [] => []
  | (ts, v) :: rest =>
    let (d', r) := add_data_point d ts v in r :: outcomes d' rest
  end.

(** ** The properties, in the words of the specification *)

(** The last [n] elements of a list, in order. *)
Definition lastn {A : Type} (n : nat) (l : list A) : list A :=
  skipn (length l - n) l.

(** Every consecutive pair of the window is strictly ordered. *)
Definition strictly_increasing (buf : list float) : Prop :=
  forall i, (i + 1 < length buf)%nat ->
            (nth i buf 0 <? nth (i + 1) buf 0) = true.

Definition strictly_decreasing (buf : list float) : Prop :=
  forall i, (i + 1 < length buf)%nat ->
            (nth (i + 1) buf 0 <? nth i buf 0) = true.

(** A tie between two neighbours. *)
Definition has_tie (buf : list float) : Prop :=
  exists i, (i + 1 < length buf)%nat /\
            (nth i buf 0 =? nth (i + 1) buf 0) = true.

(** A confidence in [[0.0, 1.0]]. *)
Definition in_unit_interval (c : float) : Prop :=
  (0 <=? c) = true /\ (c <=? 1) = true.

(** Threshold strategy. *)
Definition threshold_confidence (v th : float) : float :=
  if th =? 0 then 0 else Py.min 1 (abs (v - th) / abs th).

(** Change strategy. *)
Definition relative_change_of (prev curr : float) : float :=
  if prev =? 0 then abs curr else abs (curr - prev) / abs prev.

(** Anomaly strategy: arithmetic mean and population standard deviation of
    the whole window, the divisor being the number of values. *)
Definition window_mean (buf : list float) : float :=
  Py.sum buf / Py.float_of_int (buffer_len buf).

Definition window_variance (buf : list float) : float :=
  let m := window_mean buf in
  Py.sum (map (fun x => (x - m) * (x - m)) buf) / Py.float_of_int (buffer_len buf).

Definition window_std_dev (buf : list float) : float :=
  sqrt (window_variance buf).

Definition anomaly_confidence (dev boundary : float) : float :=
  if boundary =? 0 then 0 else Py.min 1 (dev / Py.max boundary 1).

(** Statistics. *)
Definition mean_confidence (history : list DetectionResult) : float :=
  match history with
  | [] => 0
  | _ => Py.sum (map confidence history)
         / Py.float_of_int (Z.of_nat (length history))
  end.

(** What a call returned, as far as the verdict goes. *)
Definition verdict (o : Py.result DetectionResult) : option bool :=
  match o with Ok r => Some (detected r) | Raise _ => None end.

Definition reason_of (r : DetectionResult) : option meta_value :=
  meta_get "reason" (metadata r).

Definition pattern_of (r : DetectionResult) : option meta_value :=
  meta_get "pattern" (metadata r).

(** ** Sign and class of a binary64 value, on its specification *)

Module SF.

(** The sign bit is [s], or the value is a NaN. *)
Definition signed (s : bool) (x : spec_float) : Prop :=
  match x with
  | S754_nan => True
  | S754_zero s' | S754_infinity s' | S754_finite s' _ _ => s' = s
  end.

(** A non-zero number or an infinity of sign [s]. *)
Definition proper (s : bool) (x : spec_float) : Prop :=
  match x with
  | S754_finite s' _ _ | S754_infinity s' => s' = s
  | _ => False
  end.

(** A zero or a finite number. *)
Definition finite (x : spec_float) : Prop :=
  match x with
  | S754_zero _ | S754_finite _ _ _ => True
  | _ => False
  end.

End SF.

Definition nonneg (x : float) : Prop := SF.signed false (Prim2SF x).

(** ** More of the detector *)


(** The number of values a strategy needs in the window before it gives a
    verdict: the guards at the head of the four detection functions. *)
Definition min_samples (cfg : DetectionConfig) : nat :=
  match detection_type cfg with
  | Member THRESHOLD => 1
  | Member PATTERN => 3
  | Member ANOMALY => 3
  | Member CHANGE => 2
  | Foreign _ => 0
  end.

(** The results that the calls of a run returned, in order. *)
Fixpoint returned (os : list (Py.result DetectionResult))
  : list DetectionResult :=
  match os with
  | [] => []
  | Ok r :: os' => r :: returned os'
  | Raise _ :: os' => returned os'
  end.

(** ** Dates and durations of [datetime]

    A [datetime] is a number of microseconds since 0001-01-01T00:00:00, up
    to 9999-12-31T23:59:59.999999; a [timedelta] is a number of
    microseconds. *)

Module Datetime.

Definition MAX : Z := 3652059 * 86400 * 1000000 - 1.

Definition in_range (t : Z) : bool := ((0 <=? t) && (t <=? MAX))%Z.

(** [timedelta(seconds=n)] for an [int]: the number of days must have a
    magnitude of 999999999 at most. *)
Definition timedelta_seconds (n : Z) : Py.result Z :=
  if ((-999999999 * 86400 <=? n) && (n <? 1000000000 * 86400))%Z
  then Ok (n * 1000000)%Z
  else Raise OverflowError.

(** [t + delta]: the result must be a date. *)
Definition add (t delta : Z) : Py.result Z :=
  if in_range (t + delta) then Ok (t + delta)%Z else Raise OverflowError.

(** The float nearest to an [int] of either sign, below [2 ^ 63] in
    magnitude. *)
Definition float_of_signed (z : Z) : float :=
  if (z <? 0)%Z then - Py.float_of_int (- z) else Py.float_of_int z.

(** [delta.total_seconds()]: the microseconds divided by [10 ** 6] (the
    correctly rounded quotient while the duration is below [2 ^ 53]
    microseconds, some 285 years). *)
Definition total_seconds (delta : Z) : float :=
  float_of_signed delta / 1000000.

End Datetime.

(** The decimal writing of an [int], as an f-string gives it. *)
Definition str_of_int (z : Z) : string :=
  NilZero.string_of_int (Z.to_int z).

(** ** The crossing of [index.py]

    [FaceDetectionCrossing] without its cascade classifier, which only
    [detect_faces] uses.  [update_crossing_status] takes the reading of
    [datetime.now()] and gives back the new state, the lines printed and
    whether it raised. *)

Module Index.

Record FaceDetectionCrossing : Type := mkCrossing {
  min_faces : Z;
  crossing_duration : Z;
  isCrossing : bool;
  crossing_end_time : option Z
}.

Definition __init__ (min_faces crossing_duration : Z) : FaceDetectionCrossing :=
  mkCrossing min_faces crossing_duration false None.

Definition activated_line (num_faces min_faces : Z) : string :=
  ("Crossing activated: " ++ str_of_int num_faces ++ " faces detected (min: "
   ++ str_of_int min_faces ++ ")")%string.

Definition deactivated_line : string := "Crossing deactivated: timer expired".

Definition update_crossing_status (s : FaceDetectionCrossing)
    (current_time num_faces : Z)
  : FaceDetectionCrossing * list string * Py.result unit :=
  if (num_faces >=? min_faces s)%Z then
    let out := if isCrossing s then []
               else [activated_line num_faces (min_faces s)] in
    match (delta <- Datetime.timedelta_seconds (crossing_duration s) ;;
           Datetime.add current_time delta) with
    | Ok e =>
      (mkCrossing (min_faces s) (crossing_duration s) true (Some e), out, Ok tt)
    | Raise x =>
      (mkCrossing (min_faces s) (crossing_duration s) true
                  (crossing_end_time s), out, Raise x)
    end
  else
    match isCrossing s, crossing_end_time s with
    | true, Some e =>
      if (current_time >=? e)%Z
      then (mkCrossing (min_faces s) (crossing_duration s) false None,
            [deactivated_line], Ok tt)
      else (s, [], Ok tt)
    | _, _ => (s, [], Ok tt)
    end.

(** A run of calls, each with its clock reading and its number of faces;
    a call that raises is caught and the run goes on. *)
Definition run (s : FaceDetectionCrossing) (obs : list (Z * Z))
  : FaceDetectionCrossing :=
  fold_left (fun s' o => fst (fst (update_crossing_status s' (fst o) (snd o))))
            obs s.

(** The lines printed along a run. *)
Fixpoint printed (s : FaceDetectionCrossing) (obs : list (Z * Z))
  : list string :=
  match obs with
  | [] => []
  | (t, n) :: rest =>
    let '(s', out, _) := update_crossing_status s t n in out ++ printed s' rest
  end.

(** The duration is a valid [timedelta] and the timer set at [t] is a date. *)
Definition timer_fits (s : FaceDetectionCrossing) (t : Z) : bool :=
  match (delta <- Datetime.timedelta_seconds (crossing_duration s) ;;
         Datetime.add t delta) with
  | Ok _ => true
  | Raise _ => false
  end.

End Index.

(** ** The traffic light of [main.py]

    The state that the loop of [main] carries from frame to frame and the
    block that updates it; what the loop draws and shows does not feed back
    into the state and is left out. *)

Module Main.

(** The values of [state] and [previous_state]: "red", "yellow", "green". *)
Inductive light : Type := red | yellow | green.

Definition light_eqb (a b : light) : bool :=
  match a, b with
  | red, red | yellow, yellow | green, green => true
  | _, _ => false
  end.

Definition RED_DURATION : float := 30.
Definition GREEN_DURATION : float := 30.
Definition YELLOW_DURATION : float := 1.
Definition NO_FACE_LIMIT : float := 10.

Record controller : Type := mkController {
  state : light;
  previous_state : light;
  last_change : Z;
  last_face_time : Z
}.

(** Before the loop: two readings of the clock. *)
Definition start (t0 t1 : Z) : controller := mkController red red t0 t1.

(** One turn of the loop, with the reading of [datetime.now()] and the
    number of faces found in the frame. *)
Definition step (c : controller) (now : Z) (num_faces : Z) : controller :=
  let elapsed := Datetime.total_seconds (now - last_change c) in
  let lft := if (num_faces >? 0)%Z then now else last_face_time c in
  match state c with
  | red =>
    let no_face_time := Datetime.total_seconds (now - lft) in
    if (Py.ge no_face_time NO_FACE_LIMIT && Py.ge elapsed NO_FACE_LIMIT)
       || Py.ge elapsed RED_DURATION
    then mkController yellow red now lft
    else mkController red (previous_state c) (last_change c) lft
  | yellow =>
    if Py.ge elapsed YELLOW_DURATION
    then
      let st := if light_eqb (previous_state c) red then green else red in
      mkController st st now lft
    else mkController yellow (previous_state c) (last_change c) lft
  | green =>
    if Py.ge elapsed GREEN_DURATION
    then mkController yellow green now lft
    else mkController green (previous_state c) (last_change c) lft
  end.

(** The frames of a run, as (clock reading, number of faces). *)
Definition run (c : controller) (frames : list (Z * Z)) : controller :=
  fold_left (fun c' f => step c' (fst f) (snd f)) frames c.

(** The states the light goes through, one per frame. *)
Fixpoint states (c : controller) (frames : list (Z * Z)) : list light :=
  match frames with
  | [] => []
  | (now, n) :: rest => let c' := step c now n in state c' :: states c' rest
  end.

(** The order of the lights: a light stays, red and green go to yellow, and
    yellow goes on to the other one. *)
Definition follows (before : light * light) (after : light) : bool :=
  match before, after with
  | (red, _), (red | yellow) => true
  | (green, _), (green | yellow) => true
  | (yellow, _), yellow => true
  | (yellow, red), green => true
  | (yellow, green), red => true
  | _, _ => false
  end.

(** The place of the light in its cycle: red, yellow after red, green,
    yellow after green. *)
Definition phase (c : controller) : nat :=
  match state c, previous_state c with
  | red, _ => 0
  | yellow, red => 1
  | green, _ => 2
  | yellow, _ => 3
  end.

(** The least and the greatest time, in seconds, that a light is kept. *)
Definition min_dwell (l : light) : float :=
  match l with
  | red => NO_FACE_LIMIT
  | yellow => YELLOW_DURATION
  | green => GREEN_DURATION
  end.

Definition max_dwell (l : light) : float :=
  match l with
  | red => RED_DURATION
  | yellow => YELLOW_DURATION
  | green => GREEN_DURATION
  end.

End Main.

(** ** The traffic light with cars, second script of [test_index.py]

    The loop of its [main]: the filter of the detected cars and the block
    that updates the state.  Drawing, display and the debugging prints do
    not feed back into the state and are left out. *)

Module RealMain.

(** A rectangle [(x, y, w, h)] of [detectMultiScale]; its coordinates are
    [numpy.int32] values, whose sums wrap. *)
Definition rect : Type := (Z * Z * Z * Z)%type.

Definition i32 (z : Z) : Z := ((z + 2 ^ 31) mod 2 ^ 32 - 2 ^ 31)%Z.

Definition rect_y (r : rect) : Z := let '(_, y, _, _) := r in y.

(** The test of the inner loop: the car and the face overlap. *)
Definition overlaps (car face : rect) : bool :=
  let '(cx, cy, cw, ch) := car in
  let '(fx, fy, fw, fh) := face in
  ((cx <? i32 (fx + fw)) && (i32 (cx + cw) >? fx)
   && (cy <? i32 (fy + fh)) && (i32 (cy + ch) >? fy))%Z.

(** The inner loop, which stops at the first face that overlaps. *)
Fixpoint overlap_found (car : rect) (faces : list rect) : bool :=
  match faces with
  | [] => false
  | face :: rest => if overlaps car face then true else overlap_found car rest
  end.

(** The outer loop. *)
Fixpoint filtered_cars (cars faces : list rect) : list rect :=
  match cars with
  | [] => []
  | car :: rest =>
    if overlap_found car faces then filtered_cars rest faces
    else car :: filtered_cars rest faces
  end.

(** The cars that count: below the line [y > 450], then filtered. *)
Definition counted_cars (cars faces : list rect) : list rect :=
  filtered_cars (filter (fun car => (rect_y car >? 450)%Z) cars) faces.

Definition RED_DURATION : float := 25.
Definition GREEN_DURATION : float := 25.
Definition YELLOW_DURATION : float := 2.
Definition NO_FACE_LIMIT : float := 5.
Definition NO_CAR_LIMIT : float := 5.

(** The variables of [main]; [red_no_face_start] has no value before its
    first assignment. *)
Record controller : Type := mkController {
  green_started : bool;
  red_started : bool;
  state : Main.light;
  previous_state : Main.light;
  last_change : Z;
  last_face_time : Z;
  last_car_time : Z;
  green_no_car_start : Z;
  red_no_face_start : option Z
}.

(** Before the loop: four readings of the clock. *)
Definition start (t0 t1 t2 t3 : Z) : controller :=
  mkController false false Main.red Main.red t0 t1 t2 t3 None.

(** One turn of the loop; [None] when it reads [red_no_face_start] without
    a value ([UnboundLocalError]). *)
Definition step (c : controller) (now num_faces num_cars : Z)
  : option controller :=
  let elapsed := Datetime.total_seconds (now - last_change c) in
  let lft := if (num_faces >? 0)%Z then now else last_face_time c in
  let lct := if (num_cars >? 0)%Z then now else last_car_time c in
  match state c with
  | Main.red =>
    let rs := if red_started c then red_no_face_start c else Some now in
    let rs := if (num_faces >? 0)%Z then Some now else rs in
    match rs with
    | None => None
    | Some since =>
      let no_face_elapsed := Datetime.total_seconds (now - since) in
      if Py.ge no_face_elapsed NO_FACE_LIMIT && (num_cars >? 0)%Z
      then Some (mkController (green_started c) false Main.yellow Main.red now
                              lft lct (green_no_car_start c) rs)
      else if Py.ge elapsed RED_DURATION
      then Some (mkController (green_started c) false Main.yellow Main.red now
                              lft lct (green_no_car_start c) rs)
      else Some (mkController (green_started c) true Main.red
                              (previous_state c) (last_change c)
                              lft lct (green_no_car_start c) rs)
    end
  | Main.yellow =>
    if Py.ge elapsed YELLOW_DURATION
    then
      let st := if Main.light_eqb (previous_state c) Main.red
                then Main.green else Main.red in
      Some (mkController (green_started c) (red_started c) st Main.yellow now
                         lft lct (green_no_car_start c) (red_no_face_start c))
    else Some (mkController (green_started c) (red_started c) Main.yellow
                            (previous_state c) (last_change c)
                            lft lct (green_no_car_start c)
                            (red_no_face_start c))
  | Main.green =>
    let gs := if green_started c then green_no_car_start c else now in
    let gs := if (num_cars >? 0)%Z then now else gs in
    let no_car_elapsed := Datetime.total_seconds (now - gs) in
    if Py.ge no_car_elapsed NO_CAR_LIMIT && (num_faces >? 0)%Z
    then Some (mkController false (red_started c) Main.yellow Main.green now
                            lft lct gs (red_no_face_start c))
    else if Py.ge elapsed GREEN_DURATION
    then Some (mkController false (red_started c) Main.yellow Main.green now
                            lft lct gs (red_no_face_start c))
    else Some (mkController true (red_started c) Main.green
                            (previous_state c) (last_change c)
                            lft lct gs (red_no_face_start c))
  end.

(** The frames of a run, as (clock reading, faces found, cars counted). *)
Fixpoint run (c : controller) (frames : list (Z * Z * Z))
  : option controller :=
  match frames with
  | [] => Some c
  | (now, nf, nc) :: rest =>
    match step c now nf nc with
    | Some c' => run c' rest
    | None => None
    end
  end.

(** The place of the light in its cycle. *)
Definition phase (c : controller) : nat :=
  match state c, previous_state c with
  | Main.red, _ => 0
  | Main.yellow, Main.red => 1
  | Main.green, _ => 2
  | Main.yellow, _ => 3
  end.

(** What the loop keeps from frame to frame: a red phase under way has its
    starting time, and a yellow light knows where it comes from. *)
Definition well_formed (c : controller) : Prop :=
  (red_started c = true -> red_no_face_start c <> None) /\
  match state c, previous_state c with
  | Main.yellow, Main.yellow => False
  | _, _ => True
  end.

End RealMain.

(** * Facts on binary64 arithmetic *)

(** ** On the specification of the operations *)

Module SFacts.
Import SF.
Local Open Scope Z_scope.

Lemma binary_round_aux_signed s m e l :
  signed s (binary_round_aux prec emax s m e l).
Proof.
  unfold binary_round_aux.
  destruct (shr_fexp prec emax m e l) as [mrs' e'].
  destruct (shr_fexp prec emax _ e' loc_Exact) as [mrs'' e''].
  destruct (shr_m mrs''); simpl; auto.
  destruct (Z.leb _ _); simpl; auto.
Qed.

Lemma binary_round_aux_abs s m e l :
  SFabs (binary_round_aux prec emax s m e l)
  = binary_round_aux prec emax false m e l.
Proof.
  unfold binary_round_aux.
  destruct (shr_fexp prec emax m e l) as [mrs' e'].
  destruct (shr_fexp prec emax _ e' loc_Exact) as [mrs'' e''].
  destruct (shr_m mrs''); simpl; auto.
  destruct (Z.leb _ _); simpl; auto.
Qed.

Lemma binary_round_signed s m e : signed s (binary_round prec emax s m e).
Proof.
  unfold binary_round. destruct (shl_align _ _ _) as [mz ez].
  apply binary_round_aux_signed.
Qed.

Lemma abs_signed x : signed false (SFabs x).
Proof. destruct x; simpl; auto. Qed.

Lemma div_signed x y :
  signed false x -> signed false y -> signed false (SF64div x y).
Proof.
  unfold SF64div, SFdiv.
  destruct x as [sx|sx| |sx mx ex], y as [sy|sy| |sy my ey]; simpl;
    intros; subst; auto.
  destruct (SFdiv_core_binary _ _ _ _ _ _) as [[mz ez] lz].
  apply binary_round_aux_signed.
Qed.

Lemma SFabs_div x y : SFabs (SF64div x y) = SF64div (SFabs x) (SFabs y).
Proof.
  unfold SF64div, SFdiv.
  destruct x as [sx|sx| |sx mx ex], y as [sy|sy| |sy my ey]; simpl; auto.
  destruct (SFdiv_core_binary _ _ _ _ _ _) as [[mz ez] lz].
  apply binary_round_aux_abs.
Qed.

Lemma mul_self_signed x : signed false (SF64mul x x).
Proof.
  unfold SF64mul, SFmul. destruct x as [s|s| |s m e]; simpl; auto;
    try (destruct s; reflexivity).
  replace (xorb s s) with false by (destruct s; reflexivity).
  apply binary_round_aux_signed.
Qed.

Lemma add_signed x y :
  signed false x -> signed false y -> signed false (SF64add x y).
Proof.
  unfold SF64add, SFadd.
  destruct x as [sx|sx| |sx mx ex], y as [sy|sy| |sy my ey]; simpl;
    intros; subst; simpl; auto.
  apply binary_round_signed.
Qed.

Lemma normalize_signed n :
  0 <= n -> signed false (binary_normalize prec emax n 0 false).
Proof.
  destruct n; simpl; intros; auto; try lia. apply binary_round_signed.
Qed.

(** Comparing the other way round mirrors the outcome. *)
Lemma compare_swap x y :
  SFcompare y x = option_map CompOpp (SFcompare x y).
Proof.
  destruct x as [sx|sx| |sx mx ex], y as [sy|sy| |sy my ey]; simpl; auto;
    try (destruct sx; reflexivity); try (destruct sy; reflexivity);
    try (destruct sx, sy; reflexivity).
  destruct sx, sy; simpl; auto;
    rewrite (Z.compare_antisym ex ey), (ZC4 my mx);
    destruct (ex ?= ey); simpl; auto;
    destruct (Pos.compare_cont Eq mx my); reflexivity.
Qed.

(** *** Rounding a positive mantissa never gives a zero *)

Lemma digits2_size p : digits2_pos p = Pos.size p.
Proof. induction p; simpl; congruence. Qed.

Lemma digits2_le p : 2 ^ (Zpos (digits2_pos p) - 1) <= Zpos p.
Proof.
  rewrite digits2_size.
  pose proof (Pos.size_le p) as H.
  assert (H' : 2 ^ Zpos (Pos.size p) <= 2 * Zpos p).
  { change (2 * Zpos p) with (Zpos p~0). rewrite <- Pos2Z.inj_pow.
    apply Pos2Z.pos_le_pos. exact H. }
  replace (Zpos (Pos.size p)) with (Z.succ (Zpos (Pos.size p) - 1)) in H'
    by lia.
  rewrite Z.pow_succ_r in H' by lia. lia.
Qed.

Lemma shr_1_m mrs :
  0 <= shr_m mrs -> shr_m (shr_1 mrs) = Z.div2 (shr_m mrs).
Proof.
  destruct mrs as [m r s]. simpl. destruct m as [|p|p]; simpl; try lia; auto.
  destruct p; reflexivity.
Qed.

Lemma pow2_xO k : 2 ^ Zpos k~0 = 2 ^ Zpos k * 2 ^ Zpos k.
Proof. rewrite Pos2Z.inj_xO, <- Z.pow_add_r by lia. f_equal. lia. Qed.

Lemma pow2_xI k : 2 ^ Zpos k~1 = 2 * (2 ^ Zpos k * 2 ^ Zpos k).
Proof.
  rewrite Pos2Z.inj_xI, <- Z.pow_add_r, <- Z.pow_succ_r by lia.
  f_equal. lia.
Qed.

(** [k] right shifts divide the mantissa by [2 ^ k]. *)
Lemma iter_shr_m k : forall mrs, 0 <= shr_m mrs ->
  shr_m (iter_pos shr_1 k mrs) = shr_m mrs / 2 ^ Zpos k.
Proof.
  assert (P : forall n, 0 < 2 ^ Zpos n)
    by (intros; apply Z.pow_pos_nonneg; lia).
  assert (D : forall a n, 0 <= a -> 0 <= a / 2 ^ Zpos n).
  { intros. apply Z.div_pos; [assumption|apply P]. }
  assert (one : forall mrs, 0 <= shr_m mrs ->
                            shr_m (shr_1 mrs) = shr_m mrs / 2).
  { intros. rewrite shr_1_m by assumption. apply Z.div2_div. }
  induction k as [k IH|k IH|]; intros mrs Hm; simpl iter_pos.
  - assert (H1 : 0 <= shr_m (shr_1 mrs)).
    { rewrite one by assumption. apply Z.div_pos; lia. }
    rewrite IH.
    + rewrite IH by assumption. rewrite one by assumption.
      pose proof (P k).
      rewrite pow2_xI, !Z.div_div by lia.
      f_equal; ring.
    + rewrite IH by assumption. apply D. assumption.
  - rewrite IH.
    + rewrite IH by assumption. pose proof (P k).
      rewrite pow2_xO, !Z.div_div by lia. reflexivity.
    + rewrite IH by assumption. apply D. assumption.
  - rewrite one by assumption. reflexivity.
Qed.

Lemma shr_record_m m l : shr_m (shr_record_of_loc m l) = m.
Proof. destruct l as [|[]]; reflexivity. Qed.

(** Above the smallest exponent the shift to the canonical exponent keeps
    the leading bit. *)
Lemma shr_fexp_pos m e l : emin <= e ->
  0 < shr_m (fst (shr_fexp prec emax (Zpos m) e l)) /\
  e <= snd (shr_fexp prec emax (Zpos m) e l).
Proof.
  intros He. unfold shr_fexp, shr.
  set (d := Zdigits2 (Zpos m)).
  destruct (fexp prec emax (d + e) - e) as [|k|k] eqn:Hk; simpl;
    rewrite ?shr_record_m; try lia.
  rewrite iter_shr_m by (rewrite shr_record_m; lia).
  rewrite shr_record_m. split; [|lia].
  assert (Hd : 2 ^ (d - 1) <= Zpos m) by apply digits2_le.
  assert (Hkd : Zpos k <= d - 1).
  { unfold fexp in Hk. unfold FloatOps.emin, SpecFloat.emin in *.
    subst d. simpl Zdigits2 in *. unfold prec, emax in *.
    change IntDef.Z.max with Z.max in Hk. lia. }
  assert (2 ^ Zpos k <= 2 ^ (d - 1)) by (apply Z.pow_le_mono_r; lia).
  apply Z.div_str_pos. split; [apply Z.pow_pos_nonneg; lia | lia].
Qed.

Lemma round_pos m l : 0 < m -> 0 < round_nearest_even m l.
Proof.
  destruct l as [|[]]; simpl; try lia. destruct (Z.even m); lia.
Qed.

Lemma binary_round_aux_proper s m e l : emin <= e ->
  proper s (binary_round_aux prec emax s (Zpos m) e l).
Proof.
  intros He. unfold binary_round_aux.
  pose proof (shr_fexp_pos m e l He) as [H1 H2].
  destruct (shr_fexp prec emax (Zpos m) e l) as [mrs' e']. simpl in H1, H2.
  pose proof (round_pos _ (loc_of_shr_record mrs') H1) as H3.
  destruct (round_nearest_even _ _) as [|m2|m2]; try lia.
  assert (He' : emin <= e') by lia.
  pose proof (shr_fexp_pos m2 e' loc_Exact He') as [H4 H5].
  destruct (shr_fexp prec emax (Zpos m2) e' loc_Exact) as [mrs'' e''].
  simpl in H4. destruct (shr_m mrs''); try lia.
  destruct (_ <=? _); reflexivity.
Qed.

(** A positive integer converts to a positive number. *)
Lemma normalize_proper n :
  0 < n -> proper false (binary_normalize prec emax n 0 false).
Proof.
  destruct n as [|p|p]; try lia. intros _. simpl. unfold binary_round.
  destruct (shl_align p 0 _) as [mz ez] eqn:Hs.
  apply binary_round_aux_proper.
  unfold shl_align in Hs.
  destruct (fexp prec emax (Zpos (digits2_pos p) + 0) - 0) eqn:Hf;
    inversion Hs; subst; unfold FloatOps.emin, SpecFloat.emin;
    try (vm_compute; discriminate).
  unfold fexp, SpecFloat.emin. change IntDef.Z.max with Z.max. lia.
Qed.

(** *** Zero results *)

Lemma SFsub_self x : finite x -> SF64sub x x = S754_zero false.
Proof.
  unfold SF64sub, SFsub. destruct x as [s|s| |s m e]; simpl; try tauto.
  - destruct s; reflexivity.
  - intros _. rewrite Z.sub_diag. reflexivity.
Qed.

(** Two finite values that compare equal differ by a zero. *)
Lemma SFsub_equal x y :
  finite x -> SFcompare x y = Some Eq ->
  exists s, SF64sub x y = S754_zero s.
Proof.
  intros Hx Hc.
  assert (E : x = y \/ exists s s', x = S754_zero s /\ y = S754_zero s').
  { destruct x as [sx|sx| |sx mx ex], y as [sy|sy| |sy my ey];
      simpl in Hx, Hc; try tauto; try discriminate; eauto;
      try (destruct sx; discriminate); try (destruct sy; discriminate).
    left.
    destruct sx, sy; try discriminate;
      destruct (ex ?= ey) eqn:Ee; try discriminate;
      apply Z.compare_eq in Ee; subst ey;
      destruct (Pos.compare_cont Eq mx my) eqn:Em; try discriminate;
      apply Pos.compare_eq in Em; subst my; reflexivity. }
  destruct E as [<- | (s & s' & -> & ->)].
  - exists false. apply SFsub_self, Hx.
  - destruct s, s'; simpl; eauto.
Qed.

Lemma zero_div s y : proper false y -> SF64div (S754_zero s) y = S754_zero s.
Proof.
  unfold SF64div, SFdiv. destruct y as [sy|sy| |sy m e]; simpl; try tauto;
    intros ->; destruct s; reflexivity.
Qed.

Lemma mul_zero x s :
  finite x -> exists s', SF64mul x (S754_zero s) = S754_zero s'.
Proof.
  unfold SF64mul, SFmul. destruct x as [sx|sx| |sx m e]; simpl; try tauto;
    eauto.
Qed.

End SFacts.

(** ** On the primitive operations *)

Section FloatFacts.

Lemma Prim2SF_zero : Prim2SF 0 = S754_zero false.
Proof. reflexivity. Qed.

Lemma abs_nonneg x : nonneg (abs x).
Proof. unfold nonneg. rewrite abs_spec. apply SFacts.abs_signed. Qed.

Lemma div_nonneg x y : nonneg x -> nonneg y -> nonneg (x / y).
Proof. unfold nonneg. rewrite div_spec. apply SFacts.div_signed. Qed.

Lemma add_nonneg x y : nonneg x -> nonneg y -> nonneg (x + y).
Proof. unfold nonneg. rewrite add_spec. apply SFacts.add_signed. Qed.

Lemma mul_self_nonneg x : nonneg (x * x).
Proof. unfold nonneg. rewrite mul_spec. apply SFacts.mul_self_signed. Qed.

Lemma float_of_int_nonneg n : nonneg (Py.float_of_int n).
Proof.
  unfold nonneg, Py.float_of_int. rewrite of_uint63_spec.
  apply SFacts.normalize_signed. apply Uint63.to_Z_bounded.
Qed.

Lemma nonneg_not_lt0 x : nonneg x -> (x <? 0) = false.
Proof.
  unfold nonneg. rewrite ltb_spec, Prim2SF_zero.
  destruct (Prim2SF x) as [s|s| |s m e]; simpl; intros; subst; reflexivity.
Qed.

Lemma ltb_leb x y : (x <? y) = true -> (x <=? y) = true.
Proof.
  rewrite ltb_spec, leb_spec. unfold SFltb, SFleb.
  destruct (SFcompare _ _) as [[]|]; auto.
Qed.

Lemma nonneg_lt1_ge0 x : nonneg x -> (x <? 1) = true -> (0 <=? x) = true.
Proof.
  unfold nonneg. rewrite ltb_spec, leb_spec, Prim2SF_zero.
  destruct (Prim2SF x) as [s|s| |s m e]; simpl; intros; subst; auto.
Qed.

Lemma ltb_asym x y : (x <? y) = true -> (y <? x) = false.
Proof.
  rewrite !ltb_spec. unfold SFltb. rewrite (SFacts.compare_swap (Prim2SF x)).
  destruct (SFcompare _ _) as [[]|]; simpl; auto; discriminate.
Qed.

Lemma eqb_not_ltb x y :
  (x =? y) = true -> (x <? y) = false /\ (y <? x) = false.
Proof.
  rewrite eqb_spec, !ltb_spec. unfold SFeqb, SFltb.
  rewrite (SFacts.compare_swap (Prim2SF x)).
  destruct (SFcompare _ _) as [[]|]; simpl; auto; discriminate.
Qed.

Lemma eqb_leb_swap x y : (x =? y) = true -> (y <=? x) = true.
Proof.
  rewrite eqb_spec, leb_spec. unfold SFeqb, SFleb.
  rewrite (SFacts.compare_swap (Prim2SF x)).
  destruct (SFcompare _ _) as [[]|]; simpl; auto; discriminate.
Qed.

Lemma abs_eqb0 x : (abs x =? 0) = (x =? 0).
Proof.
  rewrite !eqb_spec, abs_spec, Prim2SF_zero.
  destruct (Prim2SF x) as [s|s| |s m e]; simpl; auto; destruct s; reflexivity.
Qed.

(** The quotient of the absolute values is the absolute value of the
    quotient, bit for bit. *)
Lemma abs_div x y : abs (x / y) = abs x / abs y.
Proof.
  apply Prim2SF_inj. rewrite abs_spec, !div_spec, !abs_spec.
  apply SFacts.SFabs_div.
Qed.

Lemma pos_nonneg s : (0 <=? s) = true -> (s =? 0) = false -> nonneg s.
Proof.
  unfold nonneg. rewrite leb_spec, eqb_spec, Prim2SF_zero.
  destruct (Prim2SF s) as [b|b| |b m e]; simpl; auto; try discriminate;
    destruct b; simpl; auto; discriminate.
Qed.

(** *** Classes *)

Lemma is_nan_true x : is_nan x = true -> Prim2SF x = S754_nan.
Proof. unfold Prim2SF. intros ->. reflexivity. Qed.

Lemma is_nan_false x : is_nan x = false -> Prim2SF x <> S754_nan.
Proof.
  unfold is_nan. rewrite eqb_spec. unfold SFeqb. intros H E.
  rewrite E in H. discriminate.
Qed.

Lemma is_infinity_true x :
  is_infinity x = true -> exists s, Prim2SF x = S754_infinity s.
Proof.
  unfold is_infinity. rewrite eqb_spec, abs_spec.
  change (Prim2SF infinity) with (S754_infinity false).
  destruct (Prim2SF x) as [s|s| |s m e]; simpl; try discriminate; eauto.
Qed.

Lemma is_infinity_false x :
  is_infinity x = false -> forall s, Prim2SF x <> S754_infinity s.
Proof.
  unfold is_infinity. rewrite eqb_spec, abs_spec.
  change (Prim2SF infinity) with (S754_infinity false).
  intros H s E. rewrite E in H. discriminate.
Qed.

Lemma eqb0_true x : (x =? 0) = true -> exists s, Prim2SF x = S754_zero s.
Proof.
  rewrite eqb_spec, Prim2SF_zero.
  destruct (Prim2SF x) as [s|s| |s m e]; simpl; try discriminate; eauto;
    destruct s; discriminate.
Qed.

Lemma is_finite_spec x : Py.is_finite x = true -> SF.finite (Prim2SF x).
Proof.
  unfold Py.is_finite. intros H. apply andb_prop in H as [H1 H2].
  apply negb_true_iff in H1, H2.
  pose proof (is_nan_false x H1) as N.
  pose proof (is_infinity_false x H2) as I.
  destruct (Prim2SF x) as [s|s| |s m e]; simpl; auto;
    try (exfalso; eapply I; reflexivity); try congruence.
Qed.

(** *** Exact zeros *)

Lemma sub_self x : Py.is_finite x = true -> x - x = 0.
Proof.
  intros H. apply Prim2SF_inj. rewrite sub_spec, Prim2SF_zero.
  apply SFacts.SFsub_self, is_finite_spec, H.
Qed.

Lemma sub_equal x y :
  Py.is_finite x = true -> (y =? x) = true ->
  exists s, Prim2SF (x - y) = S754_zero s.
Proof.
  intros Hx He. rewrite sub_spec. apply SFacts.SFsub_equal.
  - apply is_finite_spec, Hx.
  - revert He. rewrite eqb_spec. unfold SFeqb.
    rewrite (SFacts.compare_swap (Prim2SF x)).
    destruct (SFcompare _ _) as [[]|]; simpl; auto; discriminate.
Qed.

(** A zero of either sign squares to [0.0] and has absolute value [0.0]. *)
Lemma zero_facts z s :
  Prim2SF z = S754_zero s -> Py.pow2 z = Ok 0 /\ abs z = 0.
Proof.
  intros E. split.
  - unfold Py.pow2, is_nan, is_infinity.
    rewrite !eqb_spec, abs_spec, E. reflexivity.
  - apply Prim2SF_inj. rewrite abs_spec, E. reflexivity.
Qed.

Lemma float_of_int_proper n :
  (0 < n < 2 ^ 63)%Z -> SF.proper false (Prim2SF (Py.float_of_int n)).
Proof.
  intros H. unfold Py.float_of_int. rewrite of_uint63_spec.
  rewrite Uint63.of_Z_spec, Z.mod_small by (change wB with (2 ^ 63)%Z; lia).
  apply SFacts.normalize_proper. lia.
Qed.

Lemma zero_div_int n : (0 < n < 2 ^ 63)%Z -> 0 / Py.float_of_int n = 0.
Proof.
  intros H. apply Prim2SF_inj. rewrite div_spec, Prim2SF_zero.
  apply SFacts.zero_div, float_of_int_proper, H.
Qed.

Lemma mul_zero_is_zero s :
  Py.is_finite s = true -> (s * 0 =? 0) = true /\ (s * 0 <? 0) = false.
Proof.
  intros H. rewrite eqb_spec, ltb_spec, mul_spec, Prim2SF_zero.
  destruct (SFacts.mul_zero (Prim2SF s) false (is_finite_spec s H)) as [s' E].
  unfold SF64mul in *. rewrite E. split; reflexivity.
Qed.

End FloatFacts.

(** * The sliding window *)

Section Window.

Lemma config_add_data_point d ts v :
  config (fst (add_data_point d ts v)) = config d.
Proof.
  unfold add_data_point. destruct (_detect _ _ _) as [r|e]; simpl; auto.
  destruct (if detected r then _ else _) as [cb|]; simpl; auto.
  destruct (cb r); reflexivity.
Qed.

Lemma buffer_add_data_point d ts v :
  data_buffer (fst (add_data_point d ts v))
  = push (config d) (data_buffer d) v.
Proof.
  unfold add_data_point. destruct (_detect _ _ _) as [r|e]; simpl; auto.
  destruct (if detected r then _ else _) as [cb|]; simpl; auto.
  destruct (cb r); reflexivity.
Qed.

Lemma feed_snoc d inputs x :
  feed d (inputs ++ [x])
  = fst (add_data_point (feed d inputs) (fst x) (snd x)).
Proof. unfold feed. rewrite fold_left_app. reflexivity. Qed.

Lemma config_feed inputs : forall d, config (feed d inputs) = config d.
Proof.
  induction inputs as [|x inputs IH] using rev_ind; intros d; auto.
  rewrite feed_snoc, config_add_data_point. apply IH.
Qed.

Lemma lastn_length {A : Type} n (l : list A) :
  length (lastn n l) = Nat.min (length l) n.
Proof. unfold lastn. rewrite length_skipn. lia. Qed.

Lemma lastn_all {A : Type} n (l : list A) :
  (length l <= n)%nat -> lastn n l = l.
Proof.
  intros H. unfold lastn. replace (length l - n)%nat with 0%nat by lia.
  reflexivity.
Qed.

Lemma lastn_snoc {A : Type} n (l : list A) v :
  (1 <= n)%nat -> lastn n (lastn n l ++ [v]) = lastn n (l ++ [v]).
Proof.
  intros Hn. destruct (Nat.le_gt_cases (length l) n) as [H|H].
  - rewrite (lastn_all n l H). reflexivity.
  - unfold lastn at 1 3. rewrite !length_app, lastn_length. simpl length.
    replace (Nat.min (length l) n + 1 - n)%nat with 1%nat by lia.
    rewrite !skipn_app. rewrite lastn_length.
    replace (1 - Nat.min (length l) n)%nat with 0%nat by lia.
    replace (length l + 1 - n - length l)%nat with 0%nat by lia.
    unfold lastn. rewrite skipn_skipn. do 2 f_equal. lia.
Qed.

(** One [append] followed by the eviction test keeps the last [n] values. *)
Lemma push_lastn cfg buf v n :
  window_size cfg = Z.of_nat n -> (1 <= n)%nat -> (length buf <= n)%nat ->
  push cfg buf v = lastn n (buf ++ [v]).
Proof.
  intros Hw Hn Hl. unfold push, buffer_len, lastn.
  rewrite length_app, Hw. simpl length.
  destruct (Z.gtb_spec (Z.of_nat (length buf + 1)) (Z.of_nat n)) as [G|G].
  - replace (length buf + 1 - n)%nat with 1%nat by lia.
    destruct (buf ++ [v]); reflexivity.
  - replace (length buf + 1 - n)%nat with 0%nat by lia. reflexivity.
Qed.

Lemma feed_window cfg inputs :
  (1 <= window_size cfg)%Z ->
  data_buffer (feed (__init__ cfg) inputs)
  = lastn (Z.to_nat (window_size cfg)) (map snd inputs).
Proof.
  intros Hw. set (n := Z.to_nat (window_size cfg)).
  induction inputs as [|x inputs IH] using rev_ind; [reflexivity|].
  rewrite feed_snoc, buffer_add_data_point, config_feed, IH. simpl config.
  rewrite map_app. simpl map.
  rewrite (push_lastn cfg _ _ n); try (subst n; lia).
  - apply lastn_snoc. subst n; lia.
  - rewrite lastn_length. lia.
Qed.

(** With no room at all the window is empty after every call. *)
Lemma feed_window_empty cfg inputs :
  (window_size cfg <= 0)%Z -> data_buffer (feed (__init__ cfg) inputs) = [].
Proof.
  intros Hw.
  induction inputs as [|x inputs IH] using rev_ind; [reflexivity|].
  rewrite feed_snoc, buffer_add_data_point, config_feed, IH. simpl config.
  unfold push, buffer_len. simpl.
  destruct (Z.gtb_spec 1 (window_size cfg)); [reflexivity | lia].
Qed.

(** With room for one value at least, the value just ingested is the most
    recent one of the window. *)
Lemma push_last cfg buf v :
  (1 <= window_size cfg)%Z ->
  push cfg buf v <> [] /\ last1 (push cfg buf v) = v.
Proof.
  intros Hw. unfold push, buffer_len. rewrite length_app. simpl length.
  destruct (Z.gtb_spec (Z.of_nat (length buf + 1)) (window_size cfg)) as [G|G].
  - destruct buf as [|x buf']; simpl in G; [lia|].
    simpl tl. split; [destruct buf'; discriminate | apply last_last].
  - split; [destruct buf; discriminate | apply last_last].
Qed.

(** Without a callback, a call gives back what the evaluation of the
    updated window gives. *)
Lemma add_data_point_detect d ts v :
  callback (config d) = None ->
  snd (add_data_point d ts v)
  = _detect (config d) (push (config d) (data_buffer d) v) ts.
Proof.
  intros Hc. unfold add_data_point. rewrite Hc.
  destruct (_detect _ _ _) as [r|e]; [|reflexivity].
  destruct (detected r); reflexivity.
Qed.

Lemma reset_clears d :
  data_buffer (reset d) = [] /\ detection_history (reset d) = [] /\
  config (reset d) = config d.
Proof. repeat split. Qed.

End Window.

(** C3. For every window size N >= 1 and every sequence of M ingested
    values, starting from the empty window, the window after the M-th call
    has length min(M, N) and holds the last min(M, N) values in insertion
    order. *)
Theorem C3_window_fifo (cfg : DetectionConfig) (inputs : list (float * float)) :
  (1 <= window_size cfg)%Z ->
  let N := Z.to_nat (window_size cfg) in
  let M := length inputs in
  let window := data_buffer (feed (__init__ cfg) inputs) in
  length window = Nat.min M N /\
  window = lastn (Nat.min M N) (map snd inputs).
Proof.
  intros Hw N M window. subst window. rewrite (feed_window cfg inputs Hw).
  fold N. split.
  - rewrite lastn_length, length_map. reflexivity.
  - unfold lastn. rewrite length_map. fold M. f_equal. lia.
Qed.

Lemma C3_window_fifo_witness :
  let cfg := mkConfig (Member THRESHOLD) (Some 10) 3 1 None in
  let inputs := [(0, 0); (0, 1); (0, 2); (0, 3); (0, 4)] in
  (1 <= window_size cfg)%Z /\
  length (data_buffer (feed (__init__ cfg) inputs)) = 3%nat /\
  data_buffer (feed (__init__ cfg) inputs) = [2; 3; 4].
Proof.
  intros cfg inputs.
  assert (H : (1 <= window_size cfg)%Z) by (vm_compute; discriminate).
  split; [exact H|]. exact (C3_window_fifo cfg inputs H).
Defined.

(** * Abstention and construction *)

(** C1, as stated, fails: a threshold detector without a threshold answers
    with the reason "insufficient_data", not "insufficient_configuration". *)
Lemma C1_reason_counterexample :
  let d := __init__ (default_config THRESHOLD) in
  threshold (config d) = None /\
  exists r, snd (add_data_point d 0 1) = Ok r /\
            reason_of r = Some (MStr "insufficient_data") /\
            reason_of r <> Some (MStr "insufficient_configuration").
Proof.
  split; [reflexivity|]. eexists. split; [reflexivity|].
  split; [reflexivity|]. vm_compute. discriminate.
Qed.

(** C1, amended. For a detector configured with the Threshold strategy and
    no threshold value, every call to ingest returns a result with
    detected = false, confidence = 0.0 and metadata reason
    "insufficient_data", the very result returned when the window is
    empty. *)
Theorem C1_missing_threshold_abstains (d : Detector) (ts v : float) :
  detection_type (config d) = Member THRESHOLD ->
  threshold (config d) = None ->
  snd (add_data_point d ts v) = Ok (abstain ts) /\
  detected (abstain ts) = false /\
  confidence (abstain ts) = 0 /\
  reason_of (abstain ts) = Some (MStr "insufficient_data") /\
  (forall cfg', _threshold_detection cfg' [] ts = Ok (abstain ts)).
Proof.
  intros Ht Hn. repeat split.
  unfold add_data_point, _detect. rewrite Ht. unfold _threshold_detection.
  rewrite Hn. destruct (push _ _ _); reflexivity.
Qed.

Lemma C1_missing_threshold_abstains_witness :
  let d := __init__ (default_config THRESHOLD) in
  detection_type (config d) = Member THRESHOLD /\
  threshold (config d) = None /\
  snd (add_data_point d 0 5) = Ok (abstain 0).
Proof.
  intros d. split; [reflexivity|]. split; [reflexivity|].
  exact (proj1 (C1_missing_threshold_abstains d 0 5 eq_refl eq_refl)).
Defined.

(** C2, as stated, fails: a configuration with an unrecognized strategy and
    a window size of 0 is accepted, and the detector built holds it. *)
Lemma C2_construction_counterexample :
  let cfg := mkConfig (Foreign "bogus") None 0 1 None in
  exists d, construct cfg = Ok d /\
            detection_type (config d) = Foreign "bogus" /\
            ~ (1 <= window_size (config d))%Z.
Proof.
  eexists. split; [reflexivity|]. split; [reflexivity|].
  vm_compute. intros H. apply H. reflexivity.
Qed.

(** C2, amended. Construction validates nothing and never fails: every
    configuration gives a detector that holds it, with an empty window and
    an empty history.  With an unrecognized strategy every evaluation
    returns detected = false, confidence = 0.0 and metadata error
    "Unknown detection type"; with a window size of 0 or less the window is
    empty after every ingest. *)
Theorem C2_construction_total (cfg : DetectionConfig) :
  construct cfg = Ok (__init__ cfg) /\
  config (__init__ cfg) = cfg /\
  data_buffer (__init__ cfg) = [] /\
  detection_history (__init__ cfg) = [] /\
  (forall repr buf ts, detection_type cfg = Foreign repr ->
     _detect cfg buf ts = Ok (unknown_type_result ts)) /\
  ((window_size cfg <= 0)%Z ->
   forall inputs, data_buffer (feed (__init__ cfg) inputs) = []).
Proof.
  repeat split.
  - intros repr buf ts H. unfold _detect. rewrite H. reflexivity.
  - intros H inputs. apply feed_window_empty, H.
Qed.

Lemma C2_construction_total_witness :
  let cfg := mkConfig (Foreign "bogus") None 0 1 None in
  construct cfg = Ok (__init__ cfg) /\
  (window_size cfg <= 0)%Z /\
  data_buffer (feed (__init__ cfg) [(0, 1); (0, 2)]) = [] /\
  _detect cfg [1; 2; 3] 0 = Ok (unknown_type_result 0).
Proof.
  intros cfg.
  destruct (C2_construction_total cfg) as (Hc & _ & _ & _ & Hu & Hw).
  assert (H0 : (window_size cfg <= 0)%Z) by (vm_compute; discriminate).
  split; [exact Hc|]. split; [exact H0|]. split.
  - exact (Hw H0 [(0, 1); (0, 2)]).
  - exact (Hu "bogus"%string [1; 2; 3] 0 eq_refl).
Defined.

(** * The strategies *)

(** The result is the one just computed. *)
Ltac this_result :=
  eexists; split; [reflexivity|]; simpl; repeat split.

Section Strategies.

Lemma last1_snoc buf v : last1 (buf ++ [v]) = v.
Proof. unfold last1. apply last_last. Qed.

Lemma all_consecutive_spec rel buf :
  all_consecutive rel buf = true <->
  (forall i, (i + 1 < length buf)%nat ->
             rel (nth i buf 0) (nth (i + 1) buf 0) = true).
Proof.
  unfold all_consecutive. rewrite forallb_forall. split.
  - intros H i Hi. apply H, in_seq. lia.
  - intros H i Hi. apply in_seq in Hi. apply H. lia.
Qed.

Lemma increasing_spec buf :
  all_consecutive PrimFloat.ltb buf = true <-> strictly_increasing buf.
Proof. apply all_consecutive_spec. Qed.

Lemma decreasing_spec buf :
  all_consecutive Py.gt buf = true <-> strictly_decreasing buf.
Proof. apply all_consecutive_spec. Qed.

(** A window of two values or more cannot go both ways. *)
Lemma not_both_ways buf :
  (2 <= length buf)%nat ->
  strictly_increasing buf -> strictly_decreasing buf -> False.
Proof.
  intros Hl Hi Hd.
  specialize (Hi 0%nat ltac:(lia)). specialize (Hd 0%nat ltac:(lia)).
  apply ltb_asym in Hi. congruence.
Qed.

Lemma tie_neither buf :
  has_tie buf -> ~ strictly_increasing buf /\ ~ strictly_decreasing buf.
Proof.
  intros (i & Hi & E). apply eqb_not_ltb in E as [E1 E2].
  split; intros H; specialize (H i Hi); congruence.
Qed.

Lemma buffer_len_ltb buf n :
  (buffer_len buf <? Z.of_nat n)%Z = (length buf <? n)%nat.
Proof.
  unfold buffer_len.
  destruct (Z.ltb_spec (Z.of_nat (length buf)) (Z.of_nat n));
    destruct (Nat.ltb_spec (length buf) n); auto; lia.
Qed.

(** The quotient of a guarded division. *)
Lemma truediv_ok x y : (y =? 0) = false -> Py.truediv x y = Ok (x / y).
Proof. unfold Py.truediv. intros ->. reflexivity. Qed.

Lemma min_one_unit q : nonneg q -> in_unit_interval (Py.min 1 q).
Proof.
  intros H. unfold Py.min, in_unit_interval.
  destruct (q <? 1) eqn:E.
  - split; [apply nonneg_lt1_ge0; assumption | apply ltb_leb, E].
  - split; reflexivity.
Qed.

Lemma max_one_facts t :
  nonneg (Py.max t 1) /\ (Py.max t 1 =? 0) = false.
Proof.
  unfold Py.max, nonneg. destruct (t <? 1) eqn:E.
  - split; reflexivity.
  - revert E. rewrite ltb_spec, eqb_spec, Prim2SF_zero.
    change (Prim2SF 1) with (S754_finite false 4503599627370496 (-52)).
    destruct (Prim2SF t) as [s|s| |s m e]; simpl; try discriminate; auto;
      destruct s; simpl; try discriminate; auto.
Qed.

Lemma unit_zero : in_unit_interval 0.
Proof. split; reflexivity. Qed.

Lemma unit_one : in_unit_interval 1.
Proof. split; reflexivity. Qed.

End Strategies.

(** C7. Pattern strategy: fewer than 3 values give the abstention
    (detected = false, confidence = 0.0, reason "insufficient_data"); with 3
    values or more, detected holds exactly when the whole window is strictly
    increasing or strictly decreasing, a tie making neither hold; the
    confidence is 1.0 when detected and 0.0 otherwise, and the metadata
    pattern is "increasing", "decreasing" or "none" accordingly. *)
Theorem C7_pattern_verdict (cfg : DetectionConfig) (buf : list float)
    (ts : float) :
  detection_type cfg = Member PATTERN ->
  ((length buf < 3)%nat ->
   _detect cfg buf ts = Ok (abstain ts) /\
   detected (abstain ts) = false /\
   confidence (abstain ts) = 0 /\
   reason_of (abstain ts) = Some (MStr "insufficient_data")) /\
  ((3 <= length buf)%nat ->
   exists r,
     _detect cfg buf ts = Ok r /\
     (detected r = true <->
      strictly_increasing buf \/ strictly_decreasing buf) /\
     (has_tie buf -> detected r = false) /\
     confidence r = (if detected r then 1 else 0) /\
     (strictly_increasing buf -> pattern_of r = Some (MStr "increasing")) /\
     (strictly_decreasing buf -> pattern_of r = Some (MStr "decreasing")) /\
     (~ strictly_increasing buf -> ~ strictly_decreasing buf ->
      pattern_of r = Some (MStr "none"))).
Proof.
  intros Ht. unfold _detect. rewrite Ht. unfold _pattern_detection.
  rewrite (buffer_len_ltb buf 3 : (buffer_len buf <? 3)%Z = _). split.
  - intros H. apply Nat.ltb_lt in H. rewrite H. repeat split.
  - intros H. assert (E : (length buf <? 3)%nat = false)
      by (apply Nat.ltb_ge; exact H).
    rewrite E. eexists. split; [reflexivity|].
    unfold pattern_of. simpl.
    pose proof (increasing_spec buf) as Hi.
    pose proof (decreasing_spec buf) as Hd.
    pose proof (tie_neither buf) as Htie.
    assert (Hx : strictly_increasing buf -> strictly_decreasing buf -> False)
      by (apply not_both_ways; lia).
    destruct (all_consecutive PrimFloat.ltb buf);
      destruct (all_consecutive Py.gt buf); simpl;
      intuition (try discriminate; try congruence).
Qed.

Lemma C7_pattern_verdict_witness :
  let cfg := mkConfig (Member PATTERN) None 5 1 None in
  detection_type cfg = Member PATTERN /\
  (length [1; 2] < 3)%nat /\ _detect cfg [1; 2] 0 = Ok (abstain 0) /\
  (3 <= length [1; 2; 3; 4; 5])%nat /\
  exists r, _detect cfg [1; 2; 3; 4; 5] 0 = Ok r /\
            confidence r = (if detected r then 1 else 0).
Proof.
  intros cfg.
  assert (H2 : (length [1; 2] < 3)%nat) by (vm_compute; reflexivity).
  assert (H5 : (3 <= length [1; 2; 3; 4; 5])%nat)
    by (vm_compute; repeat constructor).
  split; [reflexivity|]. split; [exact H2|]. split.
  - exact (proj1 (proj1 (C7_pattern_verdict cfg [1; 2] 0 eq_refl) H2)).
  - split; [exact H5|].
    destruct (proj2 (C7_pattern_verdict cfg [1; 2; 3; 4; 5] 0 eq_refl) H5)
      as (r & Hr & _ & _ & Hc & _).
    exists r. split; [exact Hr | exact Hc].
Defined.

(** The three runs of the specification: on a window of five values,
    1,2,3,4,5 is reported increasing, 5,4,3,2,1 decreasing and 1,3,2,5,4 is
    no pattern. *)
Example pattern_runs :
  let cfg := mkConfig (Member PATTERN) None 5 1 None in
  let final vs :=
    match _detect cfg (data_buffer (feed (__init__ cfg) (map (pair 0) vs))) 0 with
    | Ok r => Some (detected r, pattern_of r)
    | Raise _ => None
    end in
  final [1; 2; 3; 4; 5] = Some (true, Some (MStr "increasing")) /\
  final [5; 4; 3; 2; 1] = Some (true, Some (MStr "decreasing")) /\
  final [1; 3; 2; 5; 4] = Some (false, Some (MStr "none")).
Proof. repeat split. Qed.

(** C6. Threshold strategy with a threshold configured and a non-empty
    window, v being the most recent value: detected = (v >= threshold), so a
    value equal to the threshold is detected; the confidence is 0.0 when the
    threshold is 0 and min(1.0, |v - threshold| / |threshold|) otherwise.
    With threshold 10.0, ingesting 5.0 then 15.0 gives detected false then
    true, and ingesting 10.0 gives detected true. *)
Theorem C6_threshold_verdict (cfg : DetectionConfig) (th : float)
    (buf : list float) (ts : float) :
  detection_type cfg = Member THRESHOLD ->
  threshold cfg = Some th ->
  buf <> [] ->
  let v := last1 buf in
  (exists r,
     _detect cfg buf ts = Ok r /\
     detected r = (th <=? v) /\
     ((v =? th) = true -> detected r = true) /\
     confidence r = threshold_confidence v th) /\
  (let cfg10 := mkConfig (Member THRESHOLD) (Some 10) 10 1 None in
   map verdict (outcomes (__init__ cfg10) [(ts, 5); (ts, 15)])
   = [Some false; Some true] /\
   map verdict (outcomes (__init__ cfg10) [(ts, 10)]) = [Some true]).
Proof.
  intros Ht Hth Hb v. split; [|split; reflexivity].
  unfold _detect. rewrite Ht. unfold _threshold_detection. rewrite Hth.
  destruct buf as [|x buf']; [congruence|].
  fold v. unfold threshold_confidence, Py.ne, Py.ge.
  destruct (th =? 0) eqn:E0; simpl.
  - this_result. apply eqb_leb_swap.
  - rewrite truediv_ok by (rewrite abs_eqb0; exact E0). simpl.
    this_result. apply eqb_leb_swap.
Qed.

Lemma C6_threshold_verdict_witness :
  let cfg := mkConfig (Member THRESHOLD) (Some 10) 10 1 None in
  detection_type cfg = Member THRESHOLD /\
  threshold cfg = Some 10 /\
  [5; 15] <> [] /\
  exists r, _detect cfg [5; 15] 0 = Ok r /\
            detected r = true /\ confidence r = 0.5.
Proof.
  intros cfg.
  assert (Hb : [5; 15] <> []) by discriminate.
  split; [reflexivity|]. split; [reflexivity|]. split; [exact Hb|].
  destruct (proj1 (C6_threshold_verdict cfg 10 [5; 15] 0 eq_refl eq_refl Hb))
    as (r & Hr & Hd & _ & Hc).
  exists r. split; [exact Hr|]. split; [exact Hd | exact Hc].
Defined.

(** The change strategy performs no division that could fail. *)
Lemma change_returns cfg buf ts :
  Py.returns (_change_detection cfg buf ts) = true.
Proof.
  unfold _change_detection. destruct (buffer_len buf <? 2)%Z; [reflexivity|].
  unfold Py.ne, Py.truediv.
  destruct (last2 buf =? 0); simpl;
    destruct (sensitivity cfg =? 0); reflexivity.
Qed.

(** C5. Change strategy with 2 values or more in the window, prev and curr
    being the two most recent: the relative change is |curr - prev| / |prev|
    when prev != 0 and |curr| when prev == 0; detected = (relative change >
    sensitivity); no division by zero is performed, whatever the
    configuration and the window.  Ingesting 0.0 then 1.0 with sensitivity
    0.5 gives detected = true without raising. *)
Theorem C5_change_verdict (cfg : DetectionConfig) (buf : list float)
    (ts : float) :
  detection_type cfg = Member CHANGE ->
  (2 <= length buf)%nat ->
  let prev := last2 buf in
  let curr := last1 buf in
  (exists r,
     _detect cfg buf ts = Ok r /\
     meta_get "relative_change" (metadata r)
     = Some (MFloat (relative_change_of prev curr)) /\
     detected r = (sensitivity cfg <? relative_change_of prev curr)) /\
  (forall cfg' buf' ts', Py.returns (_change_detection cfg' buf' ts') = true) /\
  (let half := mkConfig (Member CHANGE) None 10 0.5 None in
   map verdict (outcomes (__init__ half) [(ts, 0); (ts, 1)])
   = [Some false; Some true]).
Proof.
  intros Ht Hl prev curr. split; [|split; [exact change_returns|reflexivity]].
  unfold _detect. rewrite Ht. unfold _change_detection.
  rewrite (buffer_len_ltb buf 2 : (buffer_len buf <? 2)%Z = _).
  replace (length buf <? 2)%nat with false
    by (symmetry; apply Nat.ltb_ge; exact Hl).
  fold prev. fold curr. unfold relative_change_of, Py.ne, Py.gt.
  destruct (prev =? 0) eqn:Ep; simpl.
  - destruct (sensitivity cfg =? 0) eqn:Es; simpl; [this_result|].
    rewrite truediv_ok by exact Es. simpl. this_result.
  - rewrite truediv_ok by exact Ep. simpl. rewrite abs_div.
    destruct (sensitivity cfg =? 0) eqn:Es; simpl; [this_result|].
    rewrite truediv_ok by exact Es. simpl. this_result.
Qed.

Lemma C5_change_verdict_witness :
  let cfg := mkConfig (Member CHANGE) None 10 0.5 None in
  detection_type cfg = Member CHANGE /\
  (2 <= length [0; 1])%nat /\
  exists r, _detect cfg [0; 1] 0 = Ok r /\ detected r = true.
Proof.
  intros cfg.
  assert (Hl : (2 <= length [0; 1])%nat) by (vm_compute; repeat constructor).
  split; [reflexivity|]. split; [exact Hl|].
  destruct (proj1 (C5_change_verdict cfg [0; 1] 0 eq_refl Hl))
    as (r & Hr & _ & Hd).
  exists r. split; [exact Hr | exact Hd].
Defined.

(** * Confidence *)

Section Confidence.

Lemma threshold_confidence_unit cfg buf ts r :
  _threshold_detection cfg buf ts = Ok r -> in_unit_interval (confidence r).
Proof.
  unfold _threshold_detection.
  destruct buf as [|x buf']; [inversion 1; apply unit_zero|].
  destruct (threshold cfg) as [th|]; [|inversion 1; apply unit_zero].
  unfold Py.ne, Py.truediv.
  destruct (th =? 0); simpl; [inversion 1; apply unit_zero|].
  destruct (abs th =? 0); simpl; inversion 1; simpl.
  apply min_one_unit, div_nonneg; apply abs_nonneg.
Qed.

Lemma pattern_confidence_unit cfg buf ts r :
  _pattern_detection cfg buf ts = Ok r -> in_unit_interval (confidence r).
Proof.
  unfold _pattern_detection.
  destruct (buffer_len buf <? 3)%Z; [inversion 1; apply unit_zero|].
  inversion 1; simpl.
  destruct (_ || _); [apply unit_one | apply unit_zero].
Qed.

Lemma anomaly_confidence_unit cfg buf ts r :
  _anomaly_detection cfg buf ts = Ok r -> in_unit_interval (confidence r).
Proof.
  unfold _anomaly_detection.
  destruct (buffer_len buf <? 3)%Z; [inversion 1; apply unit_zero|].
  destruct (Py.truediv_int _ _) as [mean|]; simpl; [|discriminate].
  destruct (Py.sum_gen _ _ _) as [sq|]; simpl; [|discriminate].
  destruct (Py.truediv_int _ _) as [variance|]; simpl; [|discriminate].
  destruct (Py.pow_half _) as [std_dev|]; simpl; [|discriminate].
  unfold Py.ne, Py.truediv.
  destruct (_ * _ =? 0); simpl; [inversion 1; apply unit_zero|].
  destruct (Py.max _ 1 =? 0); simpl; inversion 1; simpl.
  apply min_one_unit, div_nonneg; [apply abs_nonneg | apply max_one_facts].
Qed.

Lemma change_confidence_unit cfg buf ts r :
  (0 <=? sensitivity cfg) = true ->
  _change_detection cfg buf ts = Ok r -> in_unit_interval (confidence r).
Proof.
  intros Hs. unfold _change_detection.
  destruct (buffer_len buf <? 2)%Z; [inversion 1; apply unit_zero|].
  assert (K : forall rc, nonneg rc ->
    (conf <- (if Py.ne (sensitivity cfg) 0
              then q <- Py.truediv rc (sensitivity cfg) ;; Ok (Py.min 1 q)
              else Ok 0) ;;
     Ok (mkResult (Py.gt rc (sensitivity cfg)) conf ts
           [("previous_value", MFloat (last2 buf));
            ("current_value", MFloat (last1 buf));
            ("relative_change", MFloat rc)]%string)) = Ok r ->
    in_unit_interval (confidence r)).
  { intros rc Hrc. unfold Py.ne, Py.truediv.
    destruct (sensitivity cfg =? 0) eqn:E; simpl; inversion 1; simpl.
    - apply unit_zero.
    - apply min_one_unit, div_nonneg; [exact Hrc|].
      apply pos_nonneg; assumption. }
  unfold Py.ne at 1. unfold Py.truediv at 1.
  destruct (last2 buf =? 0); simpl; apply K; apply abs_nonneg.
Qed.

(** Every result of a detection has its confidence in [[0.0, 1.0]]. *)
Lemma detect_confidence_unit cfg buf ts r :
  (0 <=? sensitivity cfg) = true ->
  _detect cfg buf ts = Ok r -> in_unit_interval (confidence r).
Proof.
  intros Hs. unfold _detect.
  destruct (detection_type cfg) as [[]|repr].
  - apply threshold_confidence_unit.
  - apply pattern_confidence_unit.
  - apply anomaly_confidence_unit.
  - apply change_confidence_unit, Hs.
  - inversion 1. apply unit_zero.
Qed.

(** What one call appends to the history and gives back. *)
Lemma add_data_point_cases d ts v :
  let o := _detect (config d) (push (config d) (data_buffer d) v) ts in
  match o with
  | Ok r =>
    detection_history (fst (add_data_point d ts v))
    = detection_history d ++ [r] /\
    (forall r', snd (add_data_point d ts v) = Ok r' -> r' = r)
  | Raise e =>
    detection_history (fst (add_data_point d ts v)) = detection_history d /\
    snd (add_data_point d ts v) = Raise e
  end.
Proof.
  unfold add_data_point. destruct (_detect _ _ _) as [r|e]; simpl; auto.
  destruct (if detected r then _ else _) as [cb|]; simpl.
  - destruct (cb r); simpl; split; auto; intros r' H; congruence.
  - split; auto; intros r' H; congruence.
Qed.

Lemma step_confidence_unit d ts v :
  (0 <=? sensitivity (config d)) = true ->
  Forall (fun r => in_unit_interval (confidence r)) (detection_history d) ->
  Forall (fun r => in_unit_interval (confidence r))
         (detection_history (fst (add_data_point d ts v))) /\
  (forall r, snd (add_data_point d ts v) = Ok r ->
             in_unit_interval (confidence r)).
Proof.
  intros Hs Hh. pose proof (add_data_point_cases d ts v) as H. simpl in H.
  destruct (_detect _ _ _) as [r|e] eqn:E.
  - destruct H as [H1 H2].
    pose proof (detect_confidence_unit _ _ _ _ Hs E) as Hr. split.
    + rewrite H1. apply Forall_app. split; [exact Hh|]. constructor; auto.
    + intros r' Hr'. rewrite (H2 r' Hr'). exact Hr.
  - destruct H as [H1 H2]. split.
    + rewrite H1. exact Hh.
    + intros r Hr. congruence.
Qed.

Lemma run_confidence_unit inputs : forall d,
  (0 <=? sensitivity (config d)) = true ->
  Forall (fun r => in_unit_interval (confidence r)) (detection_history d) ->
  Forall (fun r => in_unit_interval (confidence r))
         (detection_history (feed d inputs)) /\
  Forall (fun o => forall r, o = Ok r -> in_unit_interval (confidence r))
         (outcomes d inputs).
Proof.
  induction inputs as [|[ts v] inputs IH]; intros d Hs Hh.
  - split; [exact Hh | constructor].
  - destruct (step_confidence_unit d ts v Hs Hh) as [H1 H2].
    simpl outcomes. unfold feed. simpl fold_left.
    destruct (add_data_point d ts v) as [d' o] eqn:E. simpl in *.
    assert (Hs' : (0 <=? sensitivity (config d')) = true).
    { replace d' with (fst (add_data_point d ts v)) by (rewrite E; reflexivity).
      rewrite config_add_data_point. exact Hs. }
    destruct (IH d' Hs' H1) as [I1 I2]. split; [exact I1|].
    constructor; [exact H2 | exact I2].
Qed.

End Confidence.

(** C8. For a detector whose sensitivity is not negative, and for every
    sequence of ingested values, the confidence of every result returned by
    ingest, and of every result in the history, lies in [[0.0, 1.0]]; this
    for every strategy, window size and threshold, zero values included. *)
Theorem C8_confidence_in_unit_interval (cfg : DetectionConfig)
    (inputs : list (float * float)) :
  (0 <=? sensitivity cfg) = true ->
  Forall (fun r => in_unit_interval (confidence r))
         (detection_history (feed (__init__ cfg) inputs)) /\
  Forall (fun o => forall r, o = Ok r -> in_unit_interval (confidence r))
         (outcomes (__init__ cfg) inputs).
Proof.
  intros Hs. apply run_confidence_unit; [exact Hs | constructor].
Qed.

Lemma C8_confidence_in_unit_interval_witness :
  let cfg := mkConfig (Member CHANGE) None 10 0 None in
  let inputs := [(0, 0); (0, 1); (0, 0)] in
  (0 <=? sensitivity cfg) = true /\
  Forall (fun r => in_unit_interval (confidence r))
         (detection_history (feed (__init__ cfg) inputs)).
Proof.
  intros cfg inputs.
  split; [reflexivity|].
  exact (proj1 (C8_confidence_in_unit_interval cfg inputs eq_refl)).
Defined.

(** * Statistics *)

Lemma count_detected_filter history :
  count_detected history = Z.of_nat (length (filter detected history)).
Proof.
  unfold count_detected.
  assert (G : forall h acc,
    fold_left (fun a r => if detected r then (a + 1)%Z else a) h acc
    = (acc + Z.of_nat (length (filter detected h)))%Z).
  { induction h as [|r h IH]; intros acc; simpl; [lia|].
    rewrite IH. destruct (detected r); simpl length; lia. }
  rewrite G. lia.
Qed.

Lemma average_returns history :
  match history with
  | [] => Ok 0
  | _ :: _ =>
    Py.truediv_int (Py.sum (map confidence history))
                   (Z.of_nat (length history))
  end = Ok (mean_confidence history).
Proof.
  destruct history as [|r h]; [reflexivity|].
  unfold Py.truediv_int, mean_confidence.
  replace (Z.of_nat (length (r :: h)) =? 0)%Z with false; [reflexivity|].
  symmetry. apply Z.eqb_neq. simpl length. lia.
Qed.

Lemma rate_returns p t :
  (if (t >? 0)%Z then Py.int_truediv p t else Ok 0)
  = Ok (if (t >? 0)%Z then Py.float_of_int p / Py.float_of_int t else 0).
Proof.
  destruct (Z.gtb_spec t 0) as [H|H]; [|reflexivity].
  unfold Py.int_truediv.
  replace (t =? 0)%Z with false; [reflexivity|].
  symmetry. apply Z.eqb_neq. lia.
Qed.

(** C9. In every state of the detector, statistics() returns: totalChecks,
    the length of the history; positiveDetections, the number of history
    entries with detected = true; detectionRate, positiveDetections /
    totalChecks when totalChecks > 0 and 0.0 otherwise; averageConfidence,
    the mean of the confidences in the history and 0.0 when it is empty;
    currentWindowLength, the length of the window.  It never divides by
    zero (it always returns) and it leaves the detector as it was. *)
Theorem C9_statistics (d : Detector) :
  let history := detection_history d in
  let total := Z.of_nat (length history) in
  let positive := Z.of_nat (length (filter detected history)) in
  (exists s,
     get_statistics d = (d, Ok s) /\
     total_checks s = total /\
     positive_detections s = positive /\
     detection_rate s
     = (if (total >? 0)%Z
        then Py.float_of_int positive / Py.float_of_int total else 0) /\
     average_confidence s = mean_confidence history /\
     buffer_size s = Z.of_nat (length (data_buffer d))) /\
  (forall cfg,
     snd (get_statistics (__init__ cfg)) = Ok (mkStats 0 0 0 0 0)).
Proof.
  intros history total positive. split; [|reflexivity].
  unfold get_statistics. rewrite count_detected_filter.
  rewrite average_returns, rate_returns. simpl Py.bind.
  eexists. split; [reflexivity|]. repeat split.
Qed.

(** * The anomaly strategy on a constant window *)

Section ConstantWindow.

Variables v m : float.
Hypothesis v_finite : Py.is_finite v = true.
Hypothesis mean_is_v : (m =? v) = true.

Lemma last1_repeat n : (1 <= n)%nat -> last1 (repeat v n) = v.
Proof.
  intros H. destruct n as [|n]; [lia|].
  replace (S n) with (n + 1)%nat by lia.
  rewrite repeat_app. simpl repeat. apply last1_snoc.
Qed.

Lemma deviation_of_constant : abs (v - m) = 0.
Proof.
  destruct (sub_equal v m v_finite mean_is_v) as [s E].
  exact (proj2 (zero_facts _ _ E)).
Qed.

(** The squared deviations from a mean equal to [v] add up to an exact
    zero. *)
Lemma squares_of_constant n :
  Py.sum_gen (fun x => Py.pow2 (x - m)) (repeat v n) 0 = Ok 0.
Proof.
  destruct (sub_equal v m v_finite mean_is_v) as [s E].
  pose proof (proj1 (zero_facts _ _ E)) as P.
  induction n as [|n IH]; [reflexivity|].
  simpl. rewrite P. exact IH.
Qed.

End ConstantWindow.

(** C10, as stated, fails: three equal values 0.1 with sensitivity 0.5.  The
    sum 0.1 + 0.1 + 0.1 rounds up, the mean computed is one unit in the last
    place above 0.1, and the third call returns detected = true with a
    confidence that is not 0.0. *)
Lemma C10_constant_window_counterexample :
  let tenth := 0x1.999999999999ap-4 in
  let cfg := mkConfig (Member ANOMALY) None 10 0.5 None in
  map (fun o => match o with
                | Ok r => Some (detected r, confidence r)
                | Raise _ => None
                end)
      (outcomes (__init__ cfg) [(0, tenth); (0, tenth); (0, tenth)])
  = [Some (false, 0); Some (false, 0); Some (true, 0x1p-56)].
Proof. reflexivity. Qed.

(** C10, amended. Anomaly strategy, sensitivity finite: when the window
    holds 3 values or more (fewer than 2 ^ 63, as every list does), all
    equal to a finite v, and the mean computed over it equals v, the result
    is detected = false with confidence 0.0.  (Rounding in the sum can make
    the computed mean differ from v.) *)
Theorem C10_constant_window_exact_mean (cfg : DetectionConfig) (v : float)
    (n : nat) (ts : float) :
  detection_type cfg = Member ANOMALY ->
  (3 <= n)%nat ->
  (Z.of_nat n < 2 ^ 63)%Z ->
  Py.is_finite v = true ->
  Py.is_finite (sensitivity cfg) = true ->
  (window_mean (repeat v n) =? v) = true ->
  exists r, _detect cfg (repeat v n) ts = Ok r /\
            detected r = false /\ confidence r = 0.
Proof.
  intros Ht Hn Hb Hv Hs Hm.
  unfold _detect. rewrite Ht. unfold _anomaly_detection.
  rewrite (buffer_len_ltb _ 3 : (buffer_len (repeat v n) <? 3)%Z = _).
  rewrite repeat_length.
  replace (n <? 3)%nat with false by (symmetry; apply Nat.ltb_ge; exact Hn).
  assert (Hlen : buffer_len (repeat v n) = Z.of_nat n)
    by (unfold buffer_len; rewrite repeat_length; reflexivity).
  unfold Py.truediv_int at 1.
  replace (buffer_len (repeat v n) =? 0)%Z with false
    by (symmetry; apply Z.eqb_neq; lia).
  simpl Py.bind. fold (window_mean (repeat v n)).
  rewrite (squares_of_constant v _ Hv Hm). simpl Py.bind.
  unfold Py.truediv_int.
  replace (buffer_len (repeat v n) =? 0)%Z with false
    by (symmetry; apply Z.eqb_neq; lia).
  simpl Py.bind. rewrite Hlen, zero_div_int by lia.
  change (Py.pow_half 0) with (@Ok float 0). simpl Py.bind.
  rewrite last1_repeat by lia. rewrite (deviation_of_constant v _ Hv Hm).
  destruct (mul_zero_is_zero _ Hs) as [E1 E2].
  unfold Py.ne, Py.gt. rewrite E1, E2. simpl.
  eexists. split; [reflexivity|]. split; reflexivity.
Qed.

Lemma C10_constant_window_exact_mean_witness :
  let cfg := mkConfig (Member ANOMALY) None 5 2 None in
  detection_type cfg = Member ANOMALY /\
  (3 <= 4)%nat /\
  (Z.of_nat 4 < 2 ^ 63)%Z /\
  Py.is_finite 10 = true /\
  Py.is_finite (sensitivity cfg) = true /\
  (window_mean (repeat 10 4) =? 10) = true /\
  exists r, _detect cfg (repeat 10 4) 0 = Ok r /\
            detected r = false /\ confidence r = 0.
Proof.
  intros cfg.
  assert (H3 : (3 <= 4)%nat) by (repeat constructor).
  assert (Hb : (Z.of_nat 4 < 2 ^ 63)%Z) by reflexivity.
  split; [reflexivity|]. split; [exact H3|]. split; [exact Hb|].
  split; [reflexivity|]. split; [reflexivity|]. split; [reflexivity|].
  exact (C10_constant_window_exact_mean cfg 10 4 0
           eq_refl H3 Hb eq_refl eq_refl eq_refl).
Defined.

(** * The anomaly strategy in general *)

Section Anomaly.

(** When [x ** 2] returns, it returns the rounded product. *)
Lemma pow2_ok x r : Py.pow2 x = Ok r -> r = x * x.
Proof.
  unfold Py.pow2.
  destruct (is_nan x) eqn:En.
  { inversion 1; subst. apply Prim2SF_inj.
    rewrite mul_spec, (is_nan_true _ En). reflexivity. }
  destruct (is_infinity x) eqn:Ei.
  { inversion 1; subst. destruct (is_infinity_true _ Ei) as [s E].
    apply Prim2SF_inj. rewrite abs_spec, mul_spec, E.
    destruct s; reflexivity. }
  destruct (x =? 0) eqn:Ez.
  { inversion 1; subst. destruct (eqb0_true _ Ez) as [s E].
    apply Prim2SF_inj. rewrite mul_spec, E. destruct s; reflexivity. }
  destruct (is_infinity (x * x)); inversion 1. reflexivity.
Qed.

Lemma pow2_raises x e : Py.pow2 x = Raise e -> e = OverflowError.
Proof.
  unfold Py.pow2.
  destruct (is_nan x); [discriminate|].
  destruct (is_infinity x); [discriminate|].
  destruct (x =? 0); [discriminate|].
  destruct (is_infinity (x * x)); inversion 1. reflexivity.
Qed.

(** On a base that is not negative, [x ** 0.5] is the square root. *)
Lemma pow_half_sqrt x : nonneg x -> Py.pow_half x = Ok (sqrt x).
Proof.
  intros Hx. unfold Py.pow_half.
  destruct (is_nan x) eqn:En.
  { f_equal. apply Prim2SF_inj.
    rewrite sqrt_spec, (is_nan_true _ En). reflexivity. }
  destruct (is_infinity x) eqn:Ei.
  { f_equal. destruct (is_infinity_true _ Ei) as [s E].
    apply Prim2SF_inj. rewrite abs_spec, sqrt_spec.
    unfold nonneg in Hx. rewrite E in *. simpl in Hx. subst s. reflexivity. }
  destruct (x =? 0) eqn:Ez.
  { f_equal. destruct (eqb0_true _ Ez) as [s E].
    apply Prim2SF_inj. rewrite sqrt_spec.
    unfold nonneg in Hx. rewrite E in *. simpl in Hx. subst s. reflexivity. }
  rewrite (nonneg_not_lt0 _ Hx). reflexivity.
Qed.

(** The sum of the squared deviations, when every square is in range. *)
Lemma sum_gen_squares m xs : forall acc s,
  Py.sum_gen (fun x => Py.pow2 (x - m)) xs acc = Ok s ->
  s = fold_left add (map (fun x => (x - m) * (x - m)) xs) acc.
Proof.
  induction xs as [|x xs IH]; intros acc s; simpl.
  - inversion 1. reflexivity.
  - destruct (Py.pow2 (x - m)) as [y|e] eqn:E; simpl; [|discriminate].
    apply pow2_ok in E. subst y. apply IH.
Qed.

Lemma sum_gen_raises m xs : forall acc e,
  Py.sum_gen (fun x => Py.pow2 (x - m)) xs acc = Raise e -> e = OverflowError.
Proof.
  induction xs as [|x xs IH]; intros acc e; simpl; [discriminate|].
  destruct (Py.pow2 (x - m)) as [y|e'] eqn:E; simpl.
  - apply IH.
  - inversion 1; subst. exact (pow2_raises _ _ E).
Qed.

Lemma sum_squares_nonneg m xs : forall acc,
  nonneg acc ->
  nonneg (fold_left add (map (fun x => (x - m) * (x - m)) xs) acc).
Proof.
  induction xs as [|x xs IH]; intros acc Ha; simpl; [exact Ha|].
  apply IH, add_nonneg; [exact Ha | apply mul_self_nonneg].
Qed.

Lemma variance_nonneg buf : nonneg (window_variance buf).
Proof.
  unfold window_variance, Py.sum. apply div_nonneg.
  - apply sum_squares_nonneg. reflexivity.
  - apply float_of_int_nonneg.
Qed.

(** Anomaly strategy with 3 values or more in the window.  The call either
    raises [OverflowError], out of the squaring of a deviation, or returns
    the verdict of the specification: the mean and the population standard
    deviation are those of the whole window, detected = (dev > boundary),
    and the confidence is 0.0 for a zero boundary and
    min(1.0, dev / max(boundary, 1.0)) otherwise. *)
Theorem anomaly_verdict (cfg : DetectionConfig) (buf : list float) (ts : float) :
  detection_type cfg = Member ANOMALY ->
  (3 <= length buf)%nat ->
  let dev := abs (last1 buf - window_mean buf) in
  let boundary := sensitivity cfg * window_std_dev buf in
  match _detect cfg buf ts with
  | Ok r =>
    detected r = (boundary <? dev) /\
    confidence r = anomaly_confidence dev boundary /\
    meta_get "mean" (metadata r) = Some (MFloat (window_mean buf)) /\
    meta_get "std_dev" (metadata r) = Some (MFloat (window_std_dev buf))
  | Raise e => e = OverflowError
  end.
Proof.
  intros Ht Hl dev boundary.
  unfold _detect. rewrite Ht. unfold _anomaly_detection.
  rewrite (buffer_len_ltb buf 3 : (buffer_len buf <? 3)%Z = _).
  replace (length buf <? 3)%nat with false
    by (symmetry; apply Nat.ltb_ge; exact Hl).
  assert (Hz : (buffer_len buf =? 0)%Z = false)
    by (apply Z.eqb_neq; unfold buffer_len; lia).
  unfold Py.truediv_int. rewrite Hz. simpl Py.bind.
  fold (window_mean buf).
  destruct (Py.sum_gen _ buf 0) as [sq|e] eqn:Esq; simpl Py.bind.
  2:{ exact (sum_gen_raises _ _ _ _ Esq). }
  apply sum_gen_squares in Esq.
  assert (Ev : sq / Py.float_of_int (buffer_len buf) = window_variance buf).
  { unfold window_variance, Py.sum. rewrite Esq. reflexivity. }
  rewrite Ev, (pow_half_sqrt _ (variance_nonneg buf)). simpl Py.bind.
  fold (window_std_dev buf). fold boundary. fold dev.
  unfold anomaly_confidence, Py.ne, Py.gt.
  destruct (boundary =? 0); simpl.
  - repeat split.
  - rewrite truediv_ok by apply max_one_facts. simpl. repeat split.
Qed.

End Anomaly.

(** C4 does not hold of the code.  The claim gives, for every window of 3
    values or more under the Anomaly strategy, a result with
    detected = (dev > boundary) and the confidence of the formula.  With the
    default configuration and the values 0.0, 0.0 and 1e200 the window has 3
    values; the third call squares a deviation of about 3.3e199 with [**]
    and raises [OverflowError]: there is no result. *)
Theorem C4_anomaly_overflow :
  let cfg := default_config ANOMALY in
  let huge := 0x1.4e718d7d7625ap+664 in
  outcomes (__init__ cfg) [(0, 0); (0, 0); (0, huge)]
  = [Ok (abstain 0); Ok (abstain 0); Raise OverflowError] /\
  data_buffer (feed (__init__ cfg) [(0, 0); (0, 0); (0, huge)])
  = [0; 0; huge].
Proof. split; reflexivity. Qed.

(** * Further properties of the detector *)

Section Runs.

Lemma outcomes_cons d ts v rest :
  outcomes d ((ts, v) :: rest)
  = snd (add_data_point d ts v) :: outcomes (fst (add_data_point d ts v)) rest.
Proof. simpl. destruct (add_data_point d ts v); reflexivity. Qed.

Lemma feed_cons d ts v rest :
  feed d ((ts, v) :: rest) = feed (fst (add_data_point d ts v)) rest.
Proof. reflexivity. Qed.

Lemma threshold_returns cfg buf ts :
  Py.returns (_threshold_detection cfg buf ts) = true.
Proof.
  unfold _threshold_detection.
  destruct buf as [|x buf']; [reflexivity|].
  destruct (threshold cfg) as [th|]; [|reflexivity].
  unfold Py.ne. destruct (th =? 0) eqn:E; simpl; [reflexivity|].
  rewrite truediv_ok by (rewrite abs_eqb0; exact E). reflexivity.
Qed.

Lemma anomaly_raises cfg buf ts e :
  _anomaly_detection cfg buf ts = Raise e -> e = OverflowError.
Proof.
  intros H.
  destruct (Nat.ltb_spec (length buf) 3) as [L|L].
  - unfold _anomaly_detection in H.
    rewrite (buffer_len_ltb buf 3 : (buffer_len buf <? 3)%Z = _) in H.
    apply Nat.ltb_lt in L. rewrite L in H. discriminate.
  - pose proof (anomaly_verdict
                  (mkConfig (Member ANOMALY) (threshold cfg) (window_size cfg)
                            (sensitivity cfg) (callback cfg))
                  buf ts eq_refl L) as V.
    simpl in V. unfold _detect in V. simpl detection_type in V.
    change (_anomaly_detection _ buf ts) with (_anomaly_detection cfg buf ts)
      in V.
    rewrite H in V. exact V.
Qed.

(** Detection raises in one case only. *)
Lemma detect_raises cfg buf ts e :
  _detect cfg buf ts = Raise e ->
  detection_type cfg = Member ANOMALY /\ e = OverflowError.
Proof.
  unfold _detect. destruct (detection_type cfg) as [[]|repr]; intros H.
  - pose proof (threshold_returns cfg buf ts) as R. rewrite H in R.
    discriminate.
  - unfold _pattern_detection in H.
    destruct (buffer_len buf <? 3)%Z; discriminate.
  - split; [reflexivity | exact (anomaly_raises _ _ _ _ H)].
  - pose proof (change_returns cfg buf ts) as R. rewrite H in R.
    discriminate.
  - discriminate.
Qed.

(** Every result carries the clock reading of its evaluation. *)
Lemma detect_timestamp cfg buf ts r :
  _detect cfg buf ts = Ok r -> timestamp r = ts.
Proof.
  unfold _detect. destruct (detection_type cfg) as [[]|repr].
  - unfold _threshold_detection.
    destruct buf as [|x buf']; [inversion 1; reflexivity|].
    destruct (threshold cfg) as [th|]; [|inversion 1; reflexivity].
    destruct (if Py.ne th 0 then _ else _) as [c|]; simpl;
      inversion 1; reflexivity.
  - unfold _pattern_detection.
    destruct (buffer_len buf <? 3)%Z; inversion 1; reflexivity.
  - unfold _anomaly_detection.
    destruct (buffer_len buf <? 3)%Z; [inversion 1; reflexivity|].
    destruct (Py.truediv_int _ _) as [mean|]; simpl; [|discriminate].
    destruct (Py.sum_gen _ _ _) as [sq|]; simpl; [|discriminate].
    destruct (Py.truediv_int _ _) as [variance|]; simpl; [|discriminate].
    destruct (Py.pow_half _) as [std_dev|]; simpl; [|discriminate].
    destruct (if Py.ne _ 0 then _ else _) as [c|]; simpl;
      inversion 1; reflexivity.
  - unfold _change_detection.
    destruct (buffer_len buf <? 2)%Z; [inversion 1; reflexivity|].
    destruct (if Py.ne (last2 buf) 0 then _ else _) as [rc|]; simpl;
      [|discriminate].
    destruct (if Py.ne (sensitivity cfg) 0 then _ else _) as [c|]; simpl;
      inversion 1; reflexivity.
  - inversion 1. reflexivity.
Qed.


Lemma window_length cfg inputs :
  length (data_buffer (feed (__init__ cfg) inputs))
  = Nat.min (length inputs) (Z.to_nat (window_size cfg)).
Proof.
  destruct (Z.le_gt_cases 1 (window_size cfg)) as [H|H].
  - rewrite (feed_window cfg inputs H), lastn_length, length_map. reflexivity.
  - rewrite feed_window_empty by lia.
    replace (Z.to_nat (window_size cfg)) with 0%nat by lia. simpl. lia.
Qed.

(** Below the number of values its strategy needs, the evaluation is the
    abstention. *)
Lemma detect_abstains cfg buf ts :
  (length buf < min_samples cfg)%nat -> _detect cfg buf ts = Ok (abstain ts).
Proof.
  unfold min_samples, _detect.
  destruct (detection_type cfg) as [[]|repr]; intros H.
  - destruct buf; [|simpl in H; lia]. unfold _threshold_detection.
    destruct (threshold cfg); reflexivity.
  - unfold _pattern_detection.
    rewrite (buffer_len_ltb buf 3 : (buffer_len buf <? 3)%Z = _).
    apply Nat.ltb_lt in H. rewrite H. reflexivity.
  - unfold _anomaly_detection.
    rewrite (buffer_len_ltb buf 3 : (buffer_len buf <? 3)%Z = _).
    apply Nat.ltb_lt in H. rewrite H. reflexivity.
  - unfold _change_detection.
    rewrite (buffer_len_ltb buf 2 : (buffer_len buf <? 2)%Z = _).
    apply Nat.ltb_lt in H. rewrite H. reflexivity.
  - lia.
Qed.

End Runs.

(** X1. [reset] after any run gives the detector that construction gives
    for the same configuration: it answers every later sequence of calls in
    the same way and its statistics are all zero. *)
Theorem reset_gives_fresh_detector (d : Detector)
    (before after : list (float * float)) :
  let d' := reset (feed d before) in
  feed d' after = feed (__init__ (config d)) after /\
  outcomes d' after = outcomes (__init__ (config d)) after /\
  snd (get_statistics d') = Ok (mkStats 0 0 0 0 0).
Proof.
  intros d'.
  assert (E : d' = __init__ (config d)).
  { subst d'. unfold reset, __init__. rewrite config_feed. reflexivity. }
  rewrite E. repeat split.
Qed.

(** X2. The history only grows, by one entry per call at most: after any
    run it is the history before followed by the new entries. *)
Theorem history_append_only (d : Detector) (inputs : list (float * float)) :
  exists new,
    detection_history (feed d inputs) = detection_history d ++ new /\
    (length new <= length inputs)%nat.
Proof.
  revert d. induction inputs as [|[ts v] inputs IH]; intros d.
  - exists []. split; [symmetry; apply app_nil_r | simpl; lia].
  - rewrite feed_cons.
    destruct (IH (fst (add_data_point d ts v))) as (new & H1 & H2).
    pose proof (add_data_point_cases d ts v) as C. simpl in C.
    destruct (_detect _ _ _) as [r|e].
    + destruct C as [C _]. exists (r :: new). rewrite H1, C, <- app_assoc.
      split; [reflexivity | simpl; lia].
    + destruct C as [C _]. exists new. rewrite H1, C.
      split; [reflexivity | simpl; lia].
Qed.

(** X3. When a call raises, the window has taken the value all the same,
    and there are two cases only: the Anomaly strategy raised
    [OverflowError] and the history is as it was, or the callback raised on
    a positive result, which the history has recorded. *)
Theorem ingest_failures (d : Detector) (ts v : float) (e : Py.exn) :
  snd (add_data_point d ts v) = Raise e ->
  let d' := fst (add_data_point d ts v) in
  data_buffer d' = push (config d) (data_buffer d) v /\
  ((detection_type (config d) = Member ANOMALY /\ e = OverflowError /\
    detection_history d' = detection_history d) \/
   (exists cb r,
      callback (config d) = Some cb /\ detected r = true /\ cb r = Some e /\
      detection_history d' = detection_history d ++ [r])).
Proof.
  intros H d'. split; [apply buffer_add_data_point|].
  subst d'. revert H. unfold add_data_point.
  destruct (_detect _ _ _) as [r|e'] eqn:E; simpl.
  - destruct (detected r) eqn:Ed; [|discriminate].
    destruct (callback (config d)) as [cb|] eqn:Ec; [|discriminate].
    destruct (cb r) as [e'|] eqn:Er; simpl; [|discriminate].
    inversion 1; subst. right. exists cb, r. auto.
  - inversion 1; subst. left.
    destruct (detect_raises _ _ _ _ E) as [Ht He]. auto.
Qed.

Lemma ingest_failures_witness :
  let d := feed (__init__ (default_config ANOMALY)) [(0, 0); (0, 0)] in
  let huge := 0x1.4e718d7d7625ap+664 in
  snd (add_data_point d 0 huge) = Raise OverflowError /\
  data_buffer (fst (add_data_point d 0 huge)) = [0; 0; huge].
Proof.
  intros d huge.
  assert (H : snd (add_data_point d 0 huge) = Raise OverflowError)
    by reflexivity.
  split; [exact H|].
  exact (proj1 (ingest_failures d 0 huge OverflowError H)).
Defined.


(** X5. When the callback, if there is one, never raises, the history of a
    detector is the sequence of the results that its calls returned. *)
Theorem history_is_returned_results (cfg : DetectionConfig)
    (inputs : list (float * float)) :
  (forall cb r, callback cfg = Some cb -> cb r = None) ->
  detection_history (feed (__init__ cfg) inputs)
  = returned (outcomes (__init__ cfg) inputs).
Proof.
  intros Hcb.
  assert (G : forall inputs d, config d = cfg ->
    detection_history (feed d inputs)
    = detection_history d ++ returned (outcomes d inputs)).
  { clear inputs. induction inputs as [|[ts v] inputs IH]; intros d Hd.
    - simpl. symmetry. apply app_nil_r.
    - rewrite feed_cons, outcomes_cons.
      rewrite IH by (rewrite config_add_data_point; exact Hd).
      unfold add_data_point. rewrite Hd.
      destruct (_detect cfg _ ts) as [r|e]; simpl; [|reflexivity].
      destruct (if detected r then callback cfg else None) as [cb|] eqn:Ec;
        simpl.
      + assert (Hc : callback cfg = Some cb)
          by (destruct (detected r); [exact Ec | discriminate]).
        rewrite (Hcb cb r Hc). simpl. rewrite <- app_assoc. reflexivity.
      + rewrite <- app_assoc. reflexivity. }
  rewrite (G inputs (__init__ cfg) eq_refl). reflexivity.
Qed.

Lemma history_is_returned_results_witness :
  let cfg := mkConfig (Member THRESHOLD) (Some 15) 10 1
                      (Some (fun _ => None)) in
  let inputs := [(1, 10); (2, 18); (3, 14)] in
  (forall cb r, callback cfg = Some cb -> cb r = None) /\
  map detected (detection_history (feed (__init__ cfg) inputs))
  = [false; true; false].
Proof.
  intros cfg inputs.
  assert (H : forall cb r, callback cfg = Some cb -> cb r = None).
  { intros cb r E. injection E as <-. reflexivity. }
  split; [exact H|].
  rewrite (history_is_returned_results cfg inputs H). reflexivity.
Defined.

Lemma history_of_total_strategy cfg inputs :
  detection_type cfg <> Member ANOMALY ->
  map timestamp (detection_history (feed (__init__ cfg) inputs))
  = map fst inputs.
Proof.
  intros Ht.
  induction inputs as [|[ts v] inputs IH] using rev_ind; [reflexivity|].
  rewrite feed_snoc. simpl fst. simpl snd.
  pose proof (add_data_point_cases (feed (__init__ cfg) inputs) ts v) as C.
  simpl in C. rewrite config_feed in C. simpl config in C.
  destruct (_detect cfg _ ts) as [r|e] eqn:E.
  - rewrite (proj1 C), !map_app, IH. simpl.
    rewrite (detect_timestamp _ _ _ _ E). reflexivity.
  - destruct (detect_raises _ _ _ _ E) as [Ha _]. contradiction.
Qed.

(** X6. With any strategy but Anomaly, every call leaves one entry in the
    history, stamped with the clock reading of the call: the timestamps of
    the history are those of the calls, in order. *)
Theorem history_timestamps (cfg : DetectionConfig)
    (inputs : list (float * float)) :
  detection_type cfg <> Member ANOMALY ->
  map timestamp (detection_history (feed (__init__ cfg) inputs))
  = map fst inputs.
Proof. apply history_of_total_strategy. Qed.

Lemma history_timestamps_witness :
  let cfg := mkConfig (Member CHANGE) None 10 0.5 None in
  detection_type cfg <> Member ANOMALY /\
  map timestamp (detection_history (feed (__init__ cfg) [(1, 10); (2, 20)]))
  = [1; 2].
Proof.
  intros cfg.
  assert (H : detection_type cfg <> Member ANOMALY) by discriminate.
  split; [exact H|].
  exact (history_timestamps cfg [(1, 10); (2, 20)] H).
Defined.

(** X7. A call abstains (detected = false, confidence 0.0, reason
    "insufficient_data") whenever the window it evaluates, which holds
    min(number of calls so far, window_size) values, is shorter than its
    strategy needs: 1 value for Threshold, 3 for Pattern and Anomaly, 2 for
    Change.  So the first calls of a detector abstain, and a detector whose
    window_size is below that number abstains for ever. *)
Theorem abstains_below_minimum (cfg : DetectionConfig)
    (before : list (float * float)) (ts v : float) :
  (Nat.min (length before + 1) (Z.to_nat (window_size cfg))
   < min_samples cfg)%nat ->
  snd (add_data_point (feed (__init__ cfg) before) ts v) = Ok (abstain ts).
Proof.
  intros H.
  pose proof (window_length cfg (before ++ [(ts, v)])) as L.
  rewrite feed_snoc, buffer_add_data_point, config_feed, length_app in L.
  simpl in L.
  unfold add_data_point. rewrite config_feed. simpl config.
  rewrite detect_abstains by (rewrite L; exact H). reflexivity.
Qed.

Lemma abstains_below_minimum_witness :
  let cfg := mkConfig (Member PATTERN) None 2 1 None in
  let before := [(0, 1); (0, 2); (0, 3)] in
  (Nat.min (length before + 1) (Z.to_nat (window_size cfg))
   < min_samples cfg)%nat /\
  snd (add_data_point (feed (__init__ cfg) before) 0 4) = Ok (abstain 0).
Proof.
  intros cfg before.
  assert (H : (Nat.min (length before + 1) (Z.to_nat (window_size cfg))
               < min_samples cfg)%nat) by (vm_compute; repeat constructor).
  split; [exact H|]. exact (abstains_below_minimum cfg before 0 4 H).
Defined.

(** ** Order and equality on binary64 *)

Ltac lex_cases :=
  repeat match goal with
  | |- context [Pos.compare_cont Eq ?a ?b] =>
    change (Pos.compare_cont Eq a b) with (Pos.compare a b)
  | H : context [Pos.compare_cont Eq ?a ?b] |- _ =>
    change (Pos.compare_cont Eq a b) with (Pos.compare a b) in H
  end;
  repeat match goal with
  | H : context [(?a ?= ?b)%Z] |- _ =>
    destruct (Z.compare_spec a b); simpl in H
  | |- context [(?a ?= ?b)%Z] => destruct (Z.compare_spec a b); simpl
  | H : context [(?a ?= ?b)%positive] |- _ =>
    destruct (Pos.compare_spec a b); simpl in H
  | |- context [(?a ?= ?b)%positive] =>
    destruct (Pos.compare_spec a b); simpl
  end;
  try discriminate; try reflexivity; try lia.

Section Order.

Lemma SFleb_trans x y z :
  SFleb x y = true -> SFleb y z = true -> SFleb x z = true.
Proof.
  unfold SFleb.
  destruct x as [sx|sx| |sx mx ex], y as [sy|sy| |sy my ey],
           z as [sz|sz| |sz mz ez]; simpl; try discriminate; auto;
    try (destruct sx; simpl; try discriminate; auto; fail);
    try (destruct sy; simpl; try discriminate; auto; fail);
    try (destruct sz; simpl; try discriminate; auto; fail);
    try (destruct sx, sy; simpl; try discriminate; auto; fail);
    try (destruct sx, sz; simpl; try discriminate; auto; fail);
    try (destruct sy, sz; simpl; try discriminate; auto; fail);
    try (destruct sx, sy, sz; simpl; try discriminate; auto; fail).
  all: destruct sx, sy, sz; simpl; try discriminate; auto;
    intros H1 H2; lex_cases.
Qed.

Lemma leb_trans x y z :
  (x <=? y) = true -> (y <=? z) = true -> (x <=? z) = true.
Proof. rewrite !leb_spec. apply SFleb_trans. Qed.

Lemma leb_not_gt x y : (x <=? y) = true -> (y <? x) = false.
Proof.
  rewrite leb_spec, ltb_spec. unfold SFleb, SFltb.
  rewrite (SFacts.compare_swap (Prim2SF x)).
  destruct (SFcompare _ _) as [[]|]; simpl; auto; discriminate.
Qed.

(** Two values that compare equal, one of them finite, are the same value
    or two zeros. *)
Lemma SFeq_cases x y :
  SF.finite x -> SFcompare x y = Some Eq ->
  x = y \/ exists s s', x = S754_zero s /\ y = S754_zero s'.
Proof.
  intros Hx Hc.
  destruct x as [sx|sx| |sx mx ex], y as [sy|sy| |sy my ey];
    simpl in Hx, Hc; try tauto; try discriminate; eauto;
    try (destruct sx; discriminate); try (destruct sy; discriminate).
  left.
  destruct sx, sy; try discriminate;
    destruct (Z.compare ex ey) eqn:Ee; try discriminate;
    apply Z.compare_eq in Ee; subst ey;
    destruct (Pos.compare_cont Eq mx my) eqn:Em; try discriminate;
    apply Pos.compare_eq in Em; subst my; reflexivity.
Qed.

Lemma eqb_cases c p :
  Py.is_finite c = true -> (c =? p) = true ->
  c = p \/ exists s s', Prim2SF c = S754_zero s /\ Prim2SF p = S754_zero s'.
Proof.
  intros Hc He. rewrite eqb_spec in He. unfold SFeqb in He.
  destruct (SFcompare (Prim2SF c) (Prim2SF p)) as [[]|] eqn:E;
    try discriminate.
  destruct (SFeq_cases _ _ (is_finite_spec c Hc) E) as [H|H]; auto.
  left. apply Prim2SF_inj, H.
Qed.

(** A positive number or [+inf]. *)
Lemma pos_proper s :
  (0 <=? s) = true -> (s =? 0) = false -> SF.proper false (Prim2SF s).
Proof.
  rewrite leb_spec, eqb_spec, Prim2SF_zero.
  destruct (Prim2SF s) as [b|b| |b m e]; simpl; try discriminate;
    destruct b; simpl; auto; discriminate.
Qed.

Lemma zero_div_pos s : (0 <=? s) = true -> (s =? 0) = false -> 0 / s = 0.
Proof.
  intros H1 H2. apply Prim2SF_inj. rewrite div_spec, Prim2SF_zero.
  apply SFacts.zero_div, pos_proper; assumption.
Qed.

(** A zero divided by a finite number that is not zero is a zero. *)
Lemma zero_div_finite p :
  Py.is_finite p = true -> (p =? 0) = false ->
  exists s, Prim2SF (0 / p) = S754_zero s.
Proof.
  intros Hf Hz. rewrite div_spec, Prim2SF_zero.
  pose proof (is_finite_spec p Hf) as F. revert Hz.
  rewrite eqb_spec, Prim2SF_zero.
  destruct (Prim2SF p) as [s|s| |s m e]; simpl in *; try tauto;
    try discriminate; eauto.
Qed.

Lemma last1_two (buf : list float) p c : last1 (buf ++ [p; c]) = c.
Proof.
  change (buf ++ [p; c]) with (buf ++ [p] ++ [c]). rewrite app_assoc.
  apply last1_snoc.
Qed.

Lemma last2_two (buf : list float) p c : last2 (buf ++ [p; c]) = p.
Proof.
  unfold last2. change (buf ++ [p; c]) with (buf ++ [p] ++ [c]).
  rewrite app_assoc, removelast_last. apply last_last.
Qed.

Lemma threshold_detected cfg th buf ts r :
  threshold cfg = Some th -> buf <> [] ->
  _threshold_detection cfg buf ts = Ok r -> detected r = (th <=? last1 buf).
Proof.
  intros Hth Hb. unfold _threshold_detection. rewrite Hth.
  destruct buf as [|x buf']; [congruence|].
  destruct (if Py.ne th 0 then _ else _) as [c|]; simpl; inversion 1.
  reflexivity.
Qed.

End Order.

(** X8. Change strategy, sensitivity not negative: when the two most recent
    values are equal (a finite value twice), the result is detected = false
    with confidence 0.0.  No change is never a detection. *)
Theorem change_of_equal_values (cfg : DetectionConfig) (buf : list float)
    (p c ts : float) :
  detection_type cfg = Member CHANGE ->
  (0 <=? sensitivity cfg) = true ->
  Py.is_finite c = true ->
  (c =? p) = true ->
  exists r, _detect cfg (buf ++ [p; c]) ts = Ok r /\
            detected r = false /\ confidence r = 0.
Proof.
  intros Ht Hs Hc He.
  unfold _detect. rewrite Ht. unfold _change_detection.
  rewrite (buffer_len_ltb _ 2 : (buffer_len (buf ++ [p; c]) <? 2)%Z = _).
  replace (length (buf ++ [p; c]) <? 2)%nat with false
    by (symmetry; apply Nat.ltb_ge; rewrite length_app; simpl; lia).
  rewrite last1_two, last2_two.
  assert (Hrc : (if Py.ne p 0
                 then q <- Py.truediv (c - p) p ;; Ok (abs q)
                 else Ok (abs c)) = Ok 0).
  { unfold Py.ne. destruct (p =? 0) eqn:Ep; simpl.
    - f_equal. destruct (eqb0_true _ Ep) as [s Zp].
      destruct (eqb_cases c p Hc He) as [-> | (s1 & s2 & Zc & _)].
      + exact (proj2 (zero_facts _ _ Zp)).
      + exact (proj2 (zero_facts _ _ Zc)).
    - rewrite truediv_ok by exact Ep. simpl. f_equal.
      destruct (eqb_cases c p Hc He) as [-> | (s1 & s2 & _ & Zp)].
      + rewrite (sub_self p Hc).
        destruct (zero_div_finite p Hc Ep) as [s Z0].
        exact (proj2 (zero_facts _ _ Z0)).
      + rewrite eqb_spec, Zp in Ep. destruct s2; discriminate. }
  rewrite Hrc. simpl Py.bind.
  unfold Py.gt, Py.ne. rewrite (leb_not_gt _ _ Hs).
  destruct (sensitivity cfg =? 0) eqn:Ez; simpl.
  - this_result.
  - rewrite truediv_ok by exact Ez. simpl.
    rewrite (zero_div_pos _ Hs Ez). this_result.
Qed.

Lemma change_of_equal_values_witness :
  let cfg := mkConfig (Member CHANGE) None 10 0.5 None in
  detection_type cfg = Member CHANGE /\
  (0 <=? sensitivity cfg) = true /\
  Py.is_finite 7 = true /\ (7 =? 7) = true /\
  exists r, _detect cfg ([1] ++ [7; 7]) 0 = Ok r /\
            detected r = false /\ confidence r = 0.
Proof.
  intros cfg. repeat (split; [reflexivity|]).
  exact (change_of_equal_values cfg [1] 7 7 0 eq_refl eq_refl eq_refl eq_refl).
Defined.

(** X9. Threshold strategy: the verdict is monotone in the most recent
    value.  When a value is detected, every value at least as large is
    detected too, whatever else the two windows hold. *)
Theorem threshold_monotone (cfg : DetectionConfig) (th : float)
    (buf1 buf2 : list float) (ts1 ts2 : float) (r1 r2 : DetectionResult) :
  detection_type cfg = Member THRESHOLD ->
  threshold cfg = Some th ->
  buf1 <> [] -> buf2 <> [] ->
  (last1 buf1 <=? last1 buf2) = true ->
  _detect cfg buf1 ts1 = Ok r1 ->
  _detect cfg buf2 ts2 = Ok r2 ->
  detected r1 = true -> detected r2 = true.
Proof.
  intros Ht Hth H1 H2 Hle D1 D2. unfold _detect in D1, D2.
  rewrite Ht in D1, D2.
  rewrite (threshold_detected _ _ _ _ _ Hth H1 D1).
  rewrite (threshold_detected _ _ _ _ _ Hth H2 D2).
  intros H. exact (leb_trans _ _ _ H Hle).
Qed.

Lemma threshold_monotone_witness :
  let cfg := mkConfig (Member THRESHOLD) (Some 10) 10 1 None in
  exists r1 r2,
    _detect cfg [3; 12] 0 = Ok r1 /\ _detect cfg [15] 1 = Ok r2 /\
    (last1 [3; 12] <=? last1 [15]) = true /\
    detected r1 = true /\ detected r2 = true.
Proof.
  intros cfg.
  destruct (_detect cfg [3; 12] 0) as [r1|] eqn:E1; [|discriminate].
  destruct (_detect cfg [15] 1) as [r2|] eqn:E2; [|discriminate].
  assert (D1 : detected r1 = true) by (injection E1 as <-; reflexivity).
  assert (N1 : [3; 12] <> []) by discriminate.
  assert (N2 : [15] <> []) by discriminate.
  assert (L : (last1 [3; 12] <=? last1 [15]) = true) by reflexivity.
  exists r1, r2. split; [reflexivity|]. split; [reflexivity|].
  split; [exact L|]. split; [exact D1|].
  exact (threshold_monotone cfg 10 [3; 12] [15] 0 1 r1 r2
           eq_refl eq_refl N1 N2 L E1 E2 D1).
Defined.

(** X10. Statistics after a run.  With any strategy but Anomaly,
    total_checks is the number of calls made; with every strategy,
    positive_detections lies between 0 and total_checks and buffer_size is
    min(number of calls, window_size), 0 for a window_size below 1. *)
Theorem statistics_after_run (cfg : DetectionConfig)
    (inputs : list (float * float)) :
  exists s,
    snd (get_statistics (feed (__init__ cfg) inputs)) = Ok s /\
    (0 <= positive_detections s <= total_checks s)%Z /\
    (total_checks s <= Z.of_nat (length inputs))%Z /\
    (detection_type cfg <> Member ANOMALY ->
     total_checks s = Z.of_nat (length inputs)) /\
    buffer_size s
    = Z.of_nat (Nat.min (length inputs) (Z.to_nat (window_size cfg))).
Proof.
  unfold get_statistics. rewrite count_detected_filter.
  rewrite average_returns, rate_returns. simpl Py.bind.
  eexists. split; [reflexivity|]. simpl.
  set (h := detection_history (feed (__init__ cfg) inputs)).
  assert (Hp : (length (filter detected h) <= length h)%nat)
    by apply filter_length_le.
  assert (Hl : (length h <= length inputs)%nat).
  { assert (G : forall inputs d,
      (length (detection_history (feed d inputs))
       <= length (detection_history d) + length inputs)%nat).
    { clear. induction inputs as [|[ts v] inputs IH]; intros d.
      - simpl. lia.
      - rewrite feed_cons. specialize (IH (fst (add_data_point d ts v))).
        pose proof (add_data_point_cases d ts v) as C. simpl in C.
        destruct (_detect _ _ _) as [r|e]; destruct C as [C _];
          rewrite C in IH; try rewrite length_app in IH; simpl in *; lia. }
    specialize (G inputs (__init__ cfg)). simpl in G. exact G. }
  repeat split; try lia.
  - intros Ht. subst h.
    rewrite <- (length_map timestamp), (history_of_total_strategy _ _ Ht).
    rewrite length_map. reflexivity.
  - unfold buffer_len. rewrite window_length. reflexivity.
Qed.

(** A witness of X10 on a short run. *)
Lemma statistics_after_run_witness :
  let cfg := mkConfig (Member THRESHOLD) (Some 10) 2 1 None in
  let inputs := [(0, 5); (0, 15); (0, 20)] in
  detection_type cfg <> Member ANOMALY /\
  exists s, snd (get_statistics (feed (__init__ cfg) inputs)) = Ok s /\
            total_checks s = 3%Z /\ buffer_size s = 2%Z.
Proof.
  intros cfg inputs.
  assert (H : detection_type cfg <> Member ANOMALY) by discriminate.
  split; [exact H|].
  destruct (statistics_after_run cfg inputs) as (s & Hs & _ & _ & Ht & Hb).
  exists s. split; [exact Hs|]. split; [exact (Ht H) | exact Hb].
Defined.

(** * The crossing of [index.py] *)

Section CrossingFacts.

Import Index.

Lemma geb_false n m : (n < m)%Z -> (n >=? m)%Z = false.
Proof. intros H. rewrite Z.geb_leb. apply Z.leb_gt, H. Qed.

Lemma geb_true n m : (m <= n)%Z -> (n >=? m)%Z = true.
Proof. intros H. rewrite Z.geb_leb. apply Z.leb_le, H. Qed.

Lemma run_cons s t n rest :
  run s ((t, n) :: rest)
  = run (fst (fst (update_crossing_status s t n))) rest.
Proof. reflexivity. Qed.

Lemma update_keeps_parameters s t n :
  let s' := fst (fst (update_crossing_status s t n)) in
  min_faces s' = min_faces s /\ crossing_duration s' = crossing_duration s.
Proof.
  unfold update_crossing_status.
  destruct (n >=? min_faces s)%Z.
  - destruct (_ <- _ ;; _); split; reflexivity.
  - destruct (isCrossing s), (crossing_end_time s) as [e|];
      try (split; reflexivity).
    destruct (t >=? e)%Z; split; reflexivity.
Qed.

(** Without enough faces, a crossing whose timer is set to [e] stays on
    until the first call at [e] or later, and is off from then on. *)
Lemma run_without_sighting m d e post :
  (forall o, In o post -> (snd o < m)%Z) ->
  run (mkCrossing m d true (Some e)) post
  = if forallb (fun o => (fst o <? e)%Z) post
    then mkCrossing m d true (Some e)
    else mkCrossing m d false None.
Proof.
  assert (Off : forall post, (forall o, In o post -> (snd o < m)%Z) ->
                run (mkCrossing m d false None) post = mkCrossing m d false None).
  { clear post. induction post as [|[t n] post IH]; intros H; [reflexivity|].
    rewrite run_cons. unfold update_crossing_status. simpl.
    rewrite (geb_false n m) by exact (H (t, n) (or_introl eq_refl)).
    simpl. apply IH. intros o Ho. apply H. right. exact Ho. }
  induction post as [|[t n] post IH]; intros H; [reflexivity|].
  rewrite run_cons. unfold update_crossing_status. simpl.
  rewrite (geb_false n m) by exact (H (t, n) (or_introl eq_refl)).
  assert (H' : forall o, In o post -> (snd o < m)%Z)
    by (intros o Ho; apply H; right; exact Ho).
  destruct (Z.ltb_spec t e) as [L|L].
  - rewrite (geb_false t e L). simpl. apply IH, H'.
  - rewrite (geb_true t e L). simpl. apply Off, H'.
Qed.

End CrossingFacts.

(** X11. Crossing: after a sighting (enough faces) at time t, whatever the
    state was, the crossing is on with its timer at t + crossing_duration;
    over the calls that follow without enough faces it stays on, timer
    unchanged, exactly as long as every call comes before that end, and it
    is off with no timer once a call came at the end or later. *)
Theorem crossing_after_sighting (s : Index.FaceDetectionCrossing)
    (t k : Z) (post : list (Z * Z)) :
  (Index.min_faces s <= k)%Z ->
  Index.timer_fits s t = true ->
  (forall o, In o post -> (snd o < Index.min_faces s)%Z) ->
  let e := (t + Index.crossing_duration s * 1000000)%Z in
  Index.run s ((t, k) :: post)
  = if forallb (fun o => (fst o <? e)%Z) post
    then Index.mkCrossing (Index.min_faces s) (Index.crossing_duration s)
                          true (Some e)
    else Index.mkCrossing (Index.min_faces s) (Index.crossing_duration s)
                          false None.
Proof.
  intros Hk Hf Hp e. rewrite run_cons.
  unfold Index.update_crossing_status.
  rewrite (geb_true _ _ Hk).
  unfold Index.timer_fits in Hf.
  destruct (_ <- _ ;; _) as [e'|x] eqn:E; [|discriminate].
  assert (He : e' = e).
  { revert E. unfold Datetime.timedelta_seconds, Datetime.add.
    destruct (_ && _); simpl; [|discriminate].
    destruct (Datetime.in_range _); inversion 1. reflexivity. }
  subst e'. simpl. apply run_without_sighting, Hp.
Qed.

Lemma crossing_after_sighting_witness :
  let s := Index.__init__ 2 5 in
  let post := [(1000000, 0); (4000000, 1); (6000000, 0)]%Z in
  (Index.min_faces s <= 3)%Z /\
  Index.timer_fits s 0 = true /\
  (forall o, In o post -> (snd o < Index.min_faces s)%Z) /\
  Index.run s ((0, 3) :: post)%Z = Index.mkCrossing 2 5 false None.
Proof.
  intros s post.
  assert (Hk : (Index.min_faces s <= 3)%Z) by (vm_compute; discriminate).
  assert (Hp : forall o, In o post -> (snd o < Index.min_faces s)%Z).
  { intros o [<-|[<-|[<-|[]]]]; reflexivity. }
  split; [exact Hk|]. split; [reflexivity|]. split; [exact Hp|].
  exact (crossing_after_sighting s 0 3 post Hk eq_refl Hp).
Defined.

(** X12. Crossing: every call prints exactly the change it makes.  It
    prints the activation line when the crossing goes from off to on, the
    deactivation line when it goes from on to off, and nothing when the
    crossing stays as it was. *)
Theorem crossing_prints_changes (s : Index.FaceDetectionCrossing) (t n : Z) :
  let s' := fst (fst (Index.update_crossing_status s t n)) in
  let out := snd (fst (Index.update_crossing_status s t n)) in
  out = match Index.isCrossing s, Index.isCrossing s' with
        | false, true => [Index.activated_line n (Index.min_faces s)]
        | true, false => [Index.deactivated_line]
        | _, _ => []
        end.
Proof.
  unfold Index.update_crossing_status.
  destruct (n >=? Index.min_faces s)%Z.
  - destruct (_ <- _ ;; _); simpl; destruct (Index.isCrossing s); reflexivity.
  - destruct (Index.isCrossing s) eqn:E,
             (Index.crossing_end_time s) as [e|]; simpl; rewrite ?E;
      try reflexivity.
    destruct (t >=? e)%Z; simpl; rewrite ?E; reflexivity.
Qed.

(** X13. Crossing: a timer is never left behind.  Along every run from
    construction, calls that raise included, a crossing whose end time is
    set is on; and as long as no call reaches min_faces, the state is the
    one of construction and nothing is printed. *)
Theorem crossing_timer_implies_on (min_faces crossing_duration : Z)
    (obs : list (Z * Z)) :
  let s := Index.run (Index.__init__ min_faces crossing_duration) obs in
  (Index.crossing_end_time s <> None -> Index.isCrossing s = true) /\
  ((forall o, In o obs -> (snd o < min_faces)%Z) ->
   s = Index.__init__ min_faces crossing_duration /\
   Index.printed (Index.__init__ min_faces crossing_duration) obs = []).
Proof.
  intros s. split.
  - subst s.
    assert (G : forall obs s0,
      (Index.crossing_end_time s0 <> None -> Index.isCrossing s0 = true) ->
      Index.crossing_end_time (Index.run s0 obs) <> None ->
      Index.isCrossing (Index.run s0 obs) = true).
    { clear. induction obs as [|[t n] obs IH]; intros s0 H0; [exact H0|].
      rewrite run_cons. apply IH.
      unfold Index.update_crossing_status.
      destruct (n >=? Index.min_faces s0)%Z.
      - destruct (_ <- _ ;; _); simpl; auto.
      - destruct (Index.isCrossing s0) eqn:E,
                 (Index.crossing_end_time s0) as [e|] eqn:E';
          simpl; rewrite ?E, ?E'; auto.
        destruct (t >=? e)%Z; simpl; rewrite ?E, ?E'; auto; congruence. }
    apply G. simpl. congruence.
  - intros H. subst s.
    induction obs as [|[t n] obs IH]; [split; reflexivity|].
    assert (Hn : (n >=? min_faces)%Z = false)
      by (apply geb_false; exact (H (t, n) (or_introl eq_refl))).
    rewrite run_cons. unfold Index.printed; fold Index.printed.
    unfold Index.update_crossing_status. simpl.
    rewrite Hn. simpl. apply IH. intros o Ho. apply H. right. exact Ho.
Qed.

Lemma crossing_timer_implies_on_witness :
  let obs := [(0, 1); (1000000, 0)]%Z in
  (forall o, In o obs -> (snd o < 2)%Z) /\
  Index.run (Index.__init__ 2 5) obs = Index.__init__ 2 5.
Proof.
  intros obs.
  assert (H : forall o, In o obs -> (snd o < 2)%Z).
  { intros o [<-|[<-|[]]]; reflexivity. }
  split; [exact H|].
  exact (proj1 (proj2 (crossing_timer_implies_on 2 5 obs) H)).
Defined.

(** X14. Crossing: a duration that [timedelta] refuses, or an end time past
    the last date, makes the call of a sighting raise [OverflowError] after
    the crossing was switched on.  From construction the crossing is then
    on with no end time, and no later call without enough faces switches it
    off. *)
Theorem crossing_stuck_on_overflow (min_faces crossing_duration t k : Z)
    (post : list (Z * Z)) :
  (min_faces <= k)%Z ->
  Index.timer_fits (Index.__init__ min_faces crossing_duration) t = false ->
  (forall o, In o post -> (snd o < min_faces)%Z) ->
  snd (Index.update_crossing_status
         (Index.__init__ min_faces crossing_duration) t k)
  = Raise OverflowError /\
  Index.run (Index.__init__ min_faces crossing_duration) ((t, k) :: post)
  = Index.mkCrossing min_faces crossing_duration true None.
Proof.
  intros Hk Hf Hp.
  assert (Hr : (delta <- Datetime.timedelta_seconds crossing_duration ;;
                Datetime.add t delta) = Raise OverflowError).
  { revert Hf. unfold Index.timer_fits. simpl.
    unfold Datetime.timedelta_seconds, Datetime.add.
    destruct (_ && _); simpl; [|reflexivity].
    destruct (Datetime.in_range _); [discriminate | reflexivity]. }
  rewrite run_cons. unfold Index.update_crossing_status. simpl.
  rewrite (geb_true _ _ Hk), Hr. simpl. split; [reflexivity|].
  induction post as [|[t' n] post IH]; [reflexivity|].
  rewrite run_cons. unfold Index.update_crossing_status. simpl.
  rewrite (geb_false n min_faces) by exact (Hp (t', n) (or_introl eq_refl)).
  simpl. apply IH. intros o Ho. apply Hp. right. exact Ho.
Qed.

Lemma crossing_stuck_on_overflow_witness :
  let d := (1000000000 * 86400)%Z in
  (1 <= 1)%Z /\
  Index.timer_fits (Index.__init__ 1 d) 0 = false /\
  Index.run (Index.__init__ 1 d) [(0, 1); (5, 0)]%Z
  = Index.mkCrossing 1 d true None.
Proof.
  intros d.
  assert (Hk : (1 <= 1)%Z) by (vm_compute; discriminate).
  assert (Hp : forall o, In o [(5, 0)%Z] -> (snd o < 1)%Z).
  { intros o [<-|[]]. reflexivity. }
  split; [exact Hk|]. split; [reflexivity|].
  exact (proj2 (crossing_stuck_on_overflow 1 d 0 1 [(5, 0)%Z] Hk eq_refl Hp)).
Defined.

(** * The traffic light of [main.py] *)

Section LightFacts.

Import Main.

(** The pairs of [state] and [previous_state] that the loop goes through. *)
Lemma light_invariant t0 t1 frames :
  let c := run (start t0 t1) frames in
  match state c, previous_state c with
  | red, red | yellow, red | green, green | yellow, green => True
  | _, _ => False
  end.
Proof.
  induction frames as [|[now n] frames IH] using rev_ind; [exact I|].
  unfold run in *. rewrite fold_left_app. simpl.
  set (c := fold_left _ frames _) in *. simpl in IH.
  unfold step.
  destruct (state c), (previous_state c); try contradiction; simpl;
    match goal with
    | |- context [if ?b then _ else _] => destruct b; simpl; exact I
    end.
Qed.

End LightFacts.

(** X15. Traffic light: the lights follow one cycle.  In every run of the
    loop, a light that is not yellow has itself as previous state, a
    yellow light has red or green, and each frame leaves the light in its
    place in the cycle red, yellow, green, yellow, red or moves it to the
    next place: red never turns green without a yellow, and the yellow
    after red goes to green, the yellow after green to red. *)
Theorem light_cycle (t0 t1 : Z) (frames : list (Z * Z)) (now n : Z) :
  let c := Main.run (Main.start t0 t1) frames in
  let c' := Main.step c now n in
  (Main.state c <> Main.yellow -> Main.previous_state c = Main.state c) /\
  (Main.state c = Main.yellow -> Main.previous_state c <> Main.yellow) /\
  (Main.phase c' = Main.phase c \/
   Main.phase c' = ((Main.phase c + 1) mod 4)%nat).
Proof.
  intros c c'. pose proof (light_invariant t0 t1 frames) as Inv.
  fold c in Inv. simpl in Inv. subst c'. unfold Main.step, Main.phase.
  destruct (Main.state c), (Main.previous_state c); try contradiction;
    (split; [intros; congruence|]); (split; [intros; congruence|]); simpl;
    match goal with
    | |- context [if ?b then _ else _] => destruct b; simpl; auto
    end.
Qed.

(** X16. Traffic light: how long a light is kept, elapsed being the seconds
    since [last_change].  A frame changes the light only when at least
    10 s (red), 1 s (yellow) or 30 s (green) have elapsed, and it then sets
    [last_change] to the time of the frame; a frame that keeps the light
    keeps [last_change]; and a frame at which 30 s (red), 1 s (yellow) or
    30 s (green) have elapsed always changes the light. *)
Theorem light_dwell_times (c : Main.controller) (now n : Z) :
  let elapsed := Datetime.total_seconds (now - Main.last_change c) in
  let c' := Main.step c now n in
  (Main.state c' <> Main.state c ->
   Py.ge elapsed (Main.min_dwell (Main.state c)) = true /\
   Main.last_change c' = now) /\
  (Main.state c' = Main.state c ->
   Main.last_change c' = Main.last_change c) /\
  (Py.ge elapsed (Main.max_dwell (Main.state c)) = true ->
   Main.state c' <> Main.state c).
Proof.
  intros elapsed c'. subst c'. unfold Main.step. fold elapsed.
  destruct (Main.state c); simpl.
  - destruct (Py.ge elapsed Main.RED_DURATION) eqn:E30.
    + rewrite orb_true_r. simpl. repeat split; try congruence.
      unfold Py.ge in *.
      exact (leb_trans Main.NO_FACE_LIMIT Main.RED_DURATION elapsed
               eq_refl E30).
    + rewrite orb_false_r.
      destruct (Py.ge _ Main.NO_FACE_LIMIT && Py.ge elapsed Main.NO_FACE_LIMIT)
        eqn:E10; simpl; repeat split; try congruence.
      apply andb_prop in E10. tauto.
  - destruct (Py.ge elapsed Main.YELLOW_DURATION) eqn:E; simpl;
      repeat split; try congruence.
    + destruct (Main.light_eqb _ _); discriminate.
    + destruct (Main.light_eqb _ _); discriminate.
  - destruct (Py.ge elapsed Main.GREEN_DURATION) eqn:E; simpl;
      repeat split; congruence.
Qed.

Lemma light_dwell_times_witness :
  let c := Main.start 0 0 in
  Main.state (Main.step c 31000000 0) <> Main.state c /\
  Main.last_change (Main.step c 31000000 0) = 31000000%Z.
Proof.
  intros c.
  assert (H : Main.state (Main.step c 31000000 0) <> Main.state c)
    by discriminate.
  split; [exact H|].
  exact (proj2 (proj1 (light_dwell_times c 31000000 0) H)).
Defined.

(** X17. Traffic light: a face in the frame holds the red light.  While
    the light is red and less than 30 s have elapsed since it turned red, a
    frame with a face keeps it red, and records the time of the frame as
    the last time a face was seen. *)
Theorem light_face_holds_red (c : Main.controller) (now n : Z) :
  Main.state c = Main.red ->
  (0 < n)%Z ->
  Py.ge (Datetime.total_seconds (now - Main.last_change c))
        Main.RED_DURATION = false ->
  Main.state (Main.step c now n) = Main.red /\
  Main.last_change (Main.step c now n) = Main.last_change c /\
  Main.last_face_time (Main.step c now n) = now.
Proof.
  intros Hs Hn He. unfold Main.step. rewrite Hs, He.
  replace (n >? 0)%Z with true by (symmetry; apply Z.gtb_lt; exact Hn).
  rewrite Z.sub_diag. simpl. repeat split.
Qed.

Lemma light_face_holds_red_witness :
  let c := Main.start 0 0 in
  Main.state c = Main.red /\ (0 < 2)%Z /\
  Py.ge (Datetime.total_seconds (12000000 - Main.last_change c))
        Main.RED_DURATION = false /\
  Main.state (Main.step c 12000000 2) = Main.red.
Proof.
  intros c.
  assert (Hn : (0 < 2)%Z) by reflexivity.
  split; [reflexivity|]. split; [exact Hn|]. split; [reflexivity|].
  exact (proj1 (light_face_holds_red c 12000000 2 eq_refl Hn eq_refl)).
Defined.

(** * A monotone stream under the pattern strategy *)

Section MonotoneStream.

(** A relation that holds along a list holds along its last values. *)
Lemma consecutive_lastn (rel : float -> float -> bool) n (l : list float) :
  (forall i, (i + 1 < length l)%nat ->
             rel (nth i l 0) (nth (i + 1) l 0) = true) ->
  forall i, (i + 1 < length (lastn n l))%nat ->
            rel (nth i (lastn n l) 0) (nth (i + 1) (lastn n l) 0) = true.
Proof.
  intros H i Hi. unfold lastn in *. rewrite length_skipn in Hi.
  rewrite !nth_skipn.
  replace (length l - n + (i + 1))%nat with (length l - n + i + 1)%nat by lia.
  apply H. lia.
Qed.

Lemma pattern_on_increasing cfg buf ts :
  (3 <= length buf)%nat -> strictly_increasing buf ->
  _pattern_detection cfg buf ts
  = Ok (mkResult true 1 ts
          [("pattern", MStr "increasing");
           ("buffer_size", MInt (buffer_len buf))]%string).
Proof.
  intros Hl Hi. unfold _pattern_detection.
  rewrite (buffer_len_ltb buf 3 : (buffer_len buf <? 3)%Z = _).
  replace (length buf <? 3)%nat with false
    by (symmetry; apply Nat.ltb_ge; exact Hl).
  apply increasing_spec in Hi. rewrite Hi. reflexivity.
Qed.

Lemma pattern_on_decreasing cfg buf ts :
  (3 <= length buf)%nat -> strictly_decreasing buf ->
  _pattern_detection cfg buf ts
  = Ok (mkResult true 1 ts
          [("pattern", MStr "decreasing");
           ("buffer_size", MInt (buffer_len buf))]%string).
Proof.
  intros Hl Hd. unfold _pattern_detection.
  rewrite (buffer_len_ltb buf 3 : (buffer_len buf <? 3)%Z = _).
  replace (length buf <? 3)%nat with false
    by (symmetry; apply Nat.ltb_ge; exact Hl).
  assert (Hi : all_consecutive PrimFloat.ltb buf = false).
  { destruct (all_consecutive PrimFloat.ltb buf) eqn:E; [|reflexivity].
    exfalso. apply increasing_spec in E.
    apply (not_both_ways buf); [lia | exact E | exact Hd]. }
  apply decreasing_spec in Hd. rewrite Hi, Hd. reflexivity.
Qed.

End MonotoneStream.

(** X18. Pattern strategy on a monotone stream.  With a window of 3 values
    or more and no callback, when all the values ingested so far are
    strictly increasing, every call from the third on returns
    detected = true with confidence 1.0 and pattern "increasing", however
    many values the window has dropped; and likewise "decreasing" for a
    strictly decreasing stream. *)
Theorem monotone_stream_detected (cfg : DetectionConfig)
    (before : list (float * float)) (ts v : float) :
  detection_type cfg = Member PATTERN ->
  callback cfg = None ->
  (3 <= window_size cfg)%Z ->
  (2 <= length before)%nat ->
  let values := map snd before ++ [v] in
  let call := snd (add_data_point (feed (__init__ cfg) before) ts v) in
  (strictly_increasing values ->
   exists r, call = Ok r /\ detected r = true /\ confidence r = 1 /\
             pattern_of r = Some (MStr "increasing")) /\
  (strictly_decreasing values ->
   exists r, call = Ok r /\ detected r = true /\ confidence r = 1 /\
             pattern_of r = Some (MStr "decreasing")).
Proof.
  intros Ht Hc Hw Hl values call.
  assert (Hbuf : push cfg (data_buffer (feed (__init__ cfg) before)) v
                 = lastn (Z.to_nat (window_size cfg)) values).
  { pose proof (feed_window cfg (before ++ [(ts, v)]) ltac:(lia)) as F.
    rewrite feed_snoc, buffer_add_data_point, config_feed, map_app in F.
    exact F. }
  assert (Hlen : (3 <= length (lastn (Z.to_nat (window_size cfg)) values))%nat).
  { rewrite lastn_length. subst values. rewrite length_app, length_map.
    simpl. lia. }
  subst call. rewrite add_data_point_detect
    by (rewrite config_feed; exact Hc).
  rewrite config_feed. simpl config. rewrite Hbuf.
  unfold _detect. rewrite Ht. split; intros H.
  - rewrite pattern_on_increasing;
      [this_result | exact Hlen | exact (consecutive_lastn _ _ _ H)].
  - rewrite pattern_on_decreasing;
      [this_result | exact Hlen |].
    exact (consecutive_lastn (fun a b => b <? a) _ _ H).
Qed.

Lemma monotone_stream_detected_witness :
  let cfg := mkConfig (Member PATTERN) None 3 1 None in
  let before := [(0, 1); (0, 2); (0, 3); (0, 4)] in
  detection_type cfg = Member PATTERN /\ callback cfg = None /\
  (3 <= window_size cfg)%Z /\ (2 <= length before)%nat /\
  strictly_increasing (map snd before ++ [5]) /\
  exists r, snd (add_data_point (feed (__init__ cfg) before) 0 5) = Ok r /\
            detected r = true.
Proof.
  intros cfg before.
  assert (Hw : (3 <= window_size cfg)%Z) by (vm_compute; discriminate).
  assert (Hl : (2 <= length before)%nat) by (vm_compute; repeat constructor).
  assert (Hi : strictly_increasing (map snd before ++ [5])).
  { intros i Hi. simpl in Hi.
    destruct i as [|[|[|[|i]]]]; try reflexivity; simpl in Hi; lia. }
  split; [reflexivity|]. split; [reflexivity|]. split; [exact Hw|].
  split; [exact Hl|]. split; [exact Hi|].
  destruct (proj1 (monotone_stream_detected cfg before 0 5
                     eq_refl eq_refl Hw Hl) Hi) as (r & Hr & Hd & _).
  exists r. split; [exact Hr | exact Hd].
Defined.

(** * The traffic light with cars *)

Section RealMainFacts.

Import RealMain.

Lemma overlap_found_spec car faces :
  overlap_found car faces = false <->
  (forall face, In face faces -> overlaps car face = false).
Proof.
  induction faces as [|f faces IH]; simpl.
  - split; [intros _ face [] | reflexivity].
  - destruct (overlaps car f) eqn:E.
    + split; [discriminate|]. intros H.
      rewrite (H f (or_introl eq_refl)) in E. discriminate.
    + rewrite IH. split.
      * intros H face [<-|Hf]; [exact E | apply H, Hf].
      * intros H face Hf. apply H. right. exact Hf.
Qed.

Lemma filtered_cars_spec cars faces :
  filtered_cars cars faces
  = filter (fun car => negb (overlap_found car faces)) cars.
Proof.
  induction cars as [|car cars IH]; simpl; [reflexivity|].
  destruct (overlap_found car faces); simpl; rewrite IH; reflexivity.
Qed.

Lemma step_well_formed c now nf nc :
  well_formed c ->
  exists c', step c now nf nc = Some c' /\ well_formed c' /\
             (phase c' = phase c \/ phase c' = ((phase c + 1) mod 4)%nat).
Proof.
  intros [Hr Hp]. unfold step, phase.
  destruct (state c) eqn:Es.
  - destruct (red_started c) eqn:Er.
    + destruct (red_no_face_start c) as [since|] eqn:En;
        [|exfalso; apply Hr; reflexivity].
      destruct (nf >? 0)%Z;
        repeat match goal with
        | |- context [if ?b then Some _ else _] => destruct b
        end;
        eexists; (split; [reflexivity|]); unfold well_formed; simpl;
        (split; [split; [intros; discriminate|exact I] | auto]).
    + destruct (nf >? 0)%Z;
        repeat match goal with
        | |- context [if ?b then Some _ else _] => destruct b
        end;
        eexists; (split; [reflexivity|]); unfold well_formed; simpl;
        (split; [split; [intros; discriminate|exact I] | auto]).
  - destruct (previous_state c) eqn:Ep; try contradiction; simpl;
      match goal with
      | |- context [if ?b then Some _ else _] => destruct b
      end;
      eexists; (split; [reflexivity|]); unfold well_formed; simpl;
      rewrite ?Ep; (split; [split; [exact Hr|exact I] | auto]).
  - repeat match goal with
    | |- context [if ?b then Some _ else _] => destruct b
    end;
    eexists; (split; [reflexivity|]); unfold well_formed; simpl;
    (split; [split; [exact Hr|exact I] | auto]).
Qed.

Lemma run_well_formed frames : forall c,
  well_formed c -> exists c', run c frames = Some c' /\ well_formed c'.
Proof.
  induction frames as [|[[now nf] nc] frames IH]; intros c Hc.
  - exists c. split; [reflexivity | exact Hc].
  - destruct (step_well_formed c now nf nc Hc) as (c1 & E & H1 & _).
    simpl. rewrite E. apply IH, H1.
Qed.

Lemma start_well_formed t0 t1 t2 t3 : well_formed (start t0 t1 t2 t3).
Proof. split; [discriminate | exact I]. Qed.

End RealMainFacts.

(** X19. Light with cars: the loop never reads [red_no_face_start] before
    it has a value.  Every run from the initial state goes through all its
    frames, and at each frame the light stays in its place in the cycle
    red, yellow, green, yellow, red or moves to the next place. *)
Theorem real_main_runs (t0 t1 t2 t3 : Z) (frames : list (Z * Z * Z))
    (now nf nc : Z) :
  exists c c',
    RealMain.run (RealMain.start t0 t1 t2 t3) frames = Some c /\
    RealMain.step c now nf nc = Some c' /\
    (RealMain.phase c' = RealMain.phase c \/
     RealMain.phase c' = ((RealMain.phase c + 1) mod 4)%nat).
Proof.
  destruct (run_well_formed frames _ (start_well_formed t0 t1 t2 t3))
    as (c & Hc & Wc).
  destruct (step_well_formed c now nf nc Wc) as (c' & Hs & _ & Hp).
  exists c, c'. auto.
Qed.

(** X20. Light with cars: a light gives way early only to the other side
    waiting alone.  A red light turns yellow before 25 s have elapsed only
    at a frame with a car and no face; a green light only at a frame with a
    face and no car.  With a face in the frame, or no car, red is held for
    its full 25 s, and green likewise with a car, or no face. *)
Theorem real_main_early_change (c c' : RealMain.controller)
    (now nf nc : Z) :
  RealMain.step c now nf nc = Some c' ->
  RealMain.state c' <> RealMain.state c ->
  let elapsed := Datetime.total_seconds (now - RealMain.last_change c) in
  (RealMain.state c = Main.red ->
   Py.ge elapsed RealMain.RED_DURATION = true \/ (0 < nc /\ nf <= 0)%Z) /\
  (RealMain.state c = Main.green ->
   Py.ge elapsed RealMain.GREEN_DURATION = true \/ (0 < nf /\ nc <= 0)%Z).
Proof.
  intros Hs Hd elapsed. unfold RealMain.step in Hs. fold elapsed in Hs.
  destruct (RealMain.state c) eqn:Es.
  - split; [intros _ | discriminate].
    destruct (Py.ge elapsed RealMain.RED_DURATION) eqn:E25; [auto|].
    destruct (Z.gtb_spec nf 0) as [F|F].
    + rewrite Z.sub_diag in Hs.
      change (Py.ge (Datetime.total_seconds 0) RealMain.NO_FACE_LIMIT)
        with false in Hs.
      simpl in Hs. inversion Hs; subst c'; simpl in Hd; congruence.
    + destruct (Z.gtb_spec nc 0) as [C|C]; [right; lia|].
      destruct (if RealMain.red_started c then _ else _); [|discriminate].
      rewrite andb_false_r in Hs.
      inversion Hs; subst c'; simpl in Hd; congruence.
  - split; discriminate.
  - split; [discriminate | intros _].
    destruct (Py.ge elapsed RealMain.GREEN_DURATION) eqn:E25; [auto|].
    destruct (Z.gtb_spec nc 0) as [C|C].
    + rewrite Z.sub_diag in Hs.
      change (Py.ge (Datetime.total_seconds 0) RealMain.NO_CAR_LIMIT)
        with false in Hs.
      simpl in Hs. inversion Hs; subst c'; simpl in Hd; congruence.
    + destruct (Z.gtb_spec nf 0) as [F|F]; [right; lia|].
      rewrite andb_false_r in Hs.
      inversion Hs; subst c'; simpl in Hd; congruence.
Qed.

Lemma real_main_early_change_witness :
  let c := RealMain.mkController false true Main.red Main.red 0 0 0 0
                                 (Some 0%Z) in
  let c' := RealMain.mkController false false Main.yellow Main.red 6000000 0
                                  6000000 0 (Some 0%Z) in
  RealMain.step c 6000000 0 2 = Some c' /\
  RealMain.state c' <> RealMain.state c /\
  (Py.ge (Datetime.total_seconds (6000000 - RealMain.last_change c))
         RealMain.RED_DURATION = true \/ (0 < 2 /\ 0 <= 0)%Z).
Proof.
  intros c c'.
  assert (E : RealMain.step c 6000000 0 2 = Some c') by reflexivity.
  assert (D : RealMain.state c' <> RealMain.state c) by discriminate.
  split; [exact E|]. split; [exact D|].
  exact (proj1 (real_main_early_change c c' 6000000 0 2 E D) eq_refl).
Defined.

(** X21. Light with cars: the cars that count.  A detected car is counted
    exactly when its [y] is above 450 and no detected face overlaps it;
    the cars counted keep the order of detection. *)
Theorem counted_cars_spec (cars faces : list RealMain.rect)
    (car : RealMain.rect) :
  (In car (RealMain.counted_cars cars faces) <->
   In car cars /\ (450 < RealMain.rect_y car)%Z /\
   forall face, In face faces -> RealMain.overlaps car face = false) /\
  RealMain.counted_cars cars faces
  = filter (fun c => (RealMain.rect_y c >? 450)%Z
                     && negb (RealMain.overlap_found c faces)) cars.
Proof.
  unfold RealMain.counted_cars. rewrite filtered_cars_spec. split.
  - rewrite !filter_In, negb_true_iff, overlap_found_spec, Z.gtb_lt. tauto.
  - induction cars as [|c cars IH]; simpl; [reflexivity|].
    destruct (RealMain.rect_y c >? 450)%Z; simpl; [|exact IH].
    destruct (RealMain.overlap_found c faces); simpl; rewrite IH; reflexivity.
Qed.
